(** * Deployment variables of the Bitbucket provider

    A shallow embedding of [bitbucket/resource_deployment_variable.go]:
    the composite-identifier helper [parseDeploymentId] and the four
    lifecycle callbacks of the [bitbucket_deployment_variable] resource
    (Create, Read, Update, Delete).

    Go strings are byte strings and are modelled by [string]; Go [int] by
    [Z]; a run-time panic is an explicit outcome of the embedding. *)

From Stdlib Require Import ZArith Lia Bool List Ascii String.
Import ListNotations.

Open Scope string_scope.
Open Scope Z_scope.

(* ================================================================== *)
(** ** Outcomes of Go code that may panic *)

(** The run-time panics the package can raise. *)
Inductive panic : Type :=
| IndexOutOfRange (index : Z) (length : Z)
    (* "index out of range [index] with length length" *)
| NilDereference.
    (* "invalid memory address or nil pointer dereference" *)

Inductive Outcome (A : Type) : Type :=
| Value (a : A)
| Panic (p : panic).

Arguments Value {A} a.
Arguments Panic {A} p.

Definition is_panic {A} (o : Outcome A) : bool :=
  match o with Value _ => false | Panic _ => true end.

(** [xs[i]] on a Go slice. *)
Definition at_index {A} (xs : list A) (i : nat) : Outcome A :=
  match nth_error xs i with
  | Some x => Value x
  | None => Panic (IndexOutOfRange (Z.of_nat i) (Z.of_nat (List.length xs)))
  end.

(* ================================================================== *)
(** ** The part of Go's [strings] package that the resource uses *)

Module strings.

Definition len (s : string) : Z := Z.of_nat (String.length s).

(** [s[lo:hi]] and [s[lo:]] for in-range bounds. *)
Definition slice (s : string) (lo hi : Z) : string :=
  substring (Z.to_nat lo) (Z.to_nat (hi - lo)) s.

Definition slice_from (s : string) (lo : Z) : string :=
  slice s lo (len s).

(** [strings.Index(s, substr)]: the index of the first instance of
    [substr] in [s], or [-1] when there is none. *)
Fixpoint Index (s substr : string) : Z :=
  if prefix substr s then 0
  else match s with
       | EmptyString => -1
       | String _ s' =>
           let m := Index s' substr in
           if m <? 0 then -1 else m + 1
       end.

(** The loop of [genSplit] (with [sepSave = 0]); [k] is the number of
    iterations still allowed, [n - i] once the Go source has done [n--]:
<<
    for i < n {
        m := Index(s, sep)
        if m < 0 { break }
        a[i] = s[:m+sepSave]
        s = s[m+len(sep):]
        i++
    }
    a[i] = s
    return a[:i+1]
>> *)
Fixpoint genSplit_loop (s sep : string) (k : nat) : list string :=
  match k with
  | O => [s]
  | S k' =>
      let m := Index s sep in
      if m <? 0 then [s]
      else slice s 0 m :: genSplit_loop (slice_from s (m + len sep)) sep k'
  end.

(** [strings.SplitN(s, sep, n)] for a non-empty separator, the case the
    package uses.  [n = 0] gives the nil slice; a negative [n] stands for
    "every substring", which [String.length s] iterations always reach;
    otherwise [n] is capped at [len(s) + 1] and the loop runs at most
    [n - 1] times.  (An empty separator makes Go split after each UTF-8
    sequence; that branch is outside this model.) *)
Definition SplitN (s sep : string) (n : Z) : list string :=
  if n =? 0 then []
  else if n <? 0 then genSplit_loop s sep (String.length s)
  else
    let n := if n >? len s + 1 then len s + 1 else n in
    genSplit_loop s sep (Z.to_nat (n - 1)).

End strings.

(* ================================================================== *)
(** ** [parseDeploymentId] *)

(** <<
    func parseDeploymentId(str string) (repository string, deployment string) {
        parts := strings.SplitN(str, ":", 2)
        return parts[0], parts[1]
    }
>> *)
Definition parseDeploymentId (str : string) : Outcome (string * string) :=
  let parts := strings.SplitN str ":" 2 in
  match at_index parts 0 with
  | Panic p => Panic p
  | Value repository =>
      match at_index parts 1 with
      | Panic p => Panic p
      | Value deployment => Value (repository, deployment)
      end
  end.

(** The bytes of a string, and what "contains a colon" means. *)
Definition colon : ascii := ":"%char.

Definition has_colon (s : string) : Prop := In colon (list_ascii_of_string s).

(* ================================================================== *)
(** ** Data model *)

(** Go's [error] values, identified by their message. *)
Inductive error : Type := Error (msg : string).

(** <<
    type DeploymentVariable struct {
        Key     string `json:"key"`
        Value   string `json:"value"`
        UUID    string `json:"uuid,omitempty"`
        Secured bool   `json:"secured"`
    }
>> *)
Record DeploymentVariable : Type := mkDeploymentVariable {
  Key : string;
  Value_ : string;
  UUID : string;
  Secured : bool
}.

(** The zero value a [var rv DeploymentVariable] starts from. *)
Definition zero_DeploymentVariable : DeploymentVariable :=
  {| Key := ""; Value_ := ""; UUID := ""; Secured := false |}.

(** <<
    type PaginatedDeploymentVariables struct {
        Values []DeploymentVariable `json:"values,omitempty"`
        Page   int                  `json:"page,omitempty"`
        Size   int                  `json:"size,omitempty"`
        Next   string               `json:"next,omitempty"`
    }
>> *)
Record PaginatedDeploymentVariables : Type := mkPaginated {
  Values : list DeploymentVariable;
  Page : Z;
  Size : Z;
  Next : string
}.

Definition zero_PaginatedDeploymentVariables : PaginatedDeploymentVariables :=
  {| Values := []; Page := 0; Size := 0; Next := "" |}.

(** The local record, [*schema.ResourceData]: the identity kept by
    [d.Id()] / [d.SetId] and the five fields of the resource schema, each
    with the Go type its schema entry fixes (so the type assertions of
    [d.Get(..).(string)] and [d.Get(..).(bool)] cannot fail). *)
Record ResourceData : Type := mkResourceData {
  Id : string;
  f_uuid : string;
  f_key : string;
  f_value : string;
  f_secured : bool;
  f_deployment : string
}.

Definition with_Id (v : string) (d : ResourceData) : ResourceData :=
  {| Id := v; f_uuid := f_uuid d; f_key := f_key d; f_value := f_value d;
     f_secured := f_secured d; f_deployment := f_deployment d |}.

Definition with_uuid (v : string) (d : ResourceData) : ResourceData :=
  {| Id := Id d; f_uuid := v; f_key := f_key d; f_value := f_value d;
     f_secured := f_secured d; f_deployment := f_deployment d |}.

Definition with_key (v : string) (d : ResourceData) : ResourceData :=
  {| Id := Id d; f_uuid := f_uuid d; f_key := v; f_value := f_value d;
     f_secured := f_secured d; f_deployment := f_deployment d |}.

Definition with_value (v : string) (d : ResourceData) : ResourceData :=
  {| Id := Id d; f_uuid := f_uuid d; f_key := f_key d; f_value := v;
     f_secured := f_secured d; f_deployment := f_deployment d |}.

Definition with_secured (v : bool) (d : ResourceData) : ResourceData :=
  {| Id := Id d; f_uuid := f_uuid d; f_key := f_key d; f_value := f_value d;
     f_secured := v; f_deployment := f_deployment d |}.

(** A change Read can make to the local record: it leaves the uuid and
    deployment fields alone and making it twice is making it once. *)
Definition settles (X : ResourceData -> ResourceData) : Prop :=
  forall d,
    f_uuid (X d) = f_uuid d /\ f_deployment (X d) = f_deployment d
    /\ X (X d) = X d.

(** An HTTP response as the package looks at it: the status code and the
    body, the latter given by what [ioutil.ReadAll] gets out of it. *)
Record ReadCloser : Type := mkReadCloser {
  content : string;
  read_error : option error
}.

Record Response : Type := mkResponse {
  StatusCode : Z;
  Body : ReadCloser
}.

Definition ioutil_ReadAll (r : ReadCloser) : string * option error :=
  (content r, read_error r).

(** What an operation does to the outside, in order. *)
Inductive Event : Type :=
| EvGet (path : string)
| EvPost (path : string) (payload : string)
| EvPut (path : string) (payload : string)
| EvDelete (path : string)
| EvSleep (nanoseconds : Z).

Definition Millisecond : Z := 1000000.

(** The two request paths, [fmt.Sprintf] of a format whose only verbs are
    [%s], applied to strings. *)
Definition variablesPath (repository deployment : string) : string :=
  "2.0/repositories/" ++ repository
  ++ "/deployments_config/environments/" ++ deployment ++ "/variables".

Definition variablePath (repository deployment uuid : string) : string :=
  "2.0/repositories/" ++ repository
  ++ "/deployments_config/environments/" ++ deployment
  ++ "/variables/" ++ uuid.

(* ================================================================== *)
(** ** A state monad with panics *)

Definition M (S A : Type) : Type := S -> Outcome A * S.

Definition ret {S A} (a : A) : M S A := fun st => (Value a, st).

Definition bind {S A B} (c : M S A) (k : A -> M S B) : M S B :=
  fun st =>
    match c st with
    | (Value a, st') => k a st'
    | (Panic p, st') => (Panic p, st')
    end.

Definition lift {S A} (o : Outcome A) : M S A := fun st => (o, st).

(** [p.field] on a pointer that may be nil. *)
Definition deref {S A} (p : option A) : M S A :=
  match p with
  | Some a => ret a
  | None => lift (Panic NilDereference)
  end.

Notation "x <- c ;; k" := (bind c (fun x => k))
  (at level 61, c at next level, right associativity).
Notation "' pat <- c ;; k" := (bind c (fun x => match x with pat => k end))
  (at level 61, pat pattern, c at next level, right associativity).
Notation "c ;; k" := (bind c (fun _ => k))
  (at level 61, right associativity).

(* ================================================================== *)
(** ** The resource *)

Section Resource.

(** The remote service, as far as a run can tell: whatever decides the
    answers of the HTTP client and is changed by its requests. *)
Variable World : Type.

(** The [*Client] the callbacks get through [m] (the provider configures
    [m] to be one, so the type assertion on [m] holds): four methods
    that return a response pointer (possibly nil) and an error (possibly
    nil). *)
Record Client : Type := mkClient {
  Get : string -> World -> (option Response * option error) * World;
  Post : string -> string -> World -> (option Response * option error) * World;
  Put : string -> string -> World -> (option Response * option error) * World;
  Delete : string -> World -> (option Response * option error) * World
}.

(** [encoding/json] at the two types of the package.  [json.Unmarshal]
    fills the value it is pointed at and reports an error or nil. *)
Variable json_Marshal : DeploymentVariable -> string * option error.
Variable json_Unmarshal_DeploymentVariable :
  string -> DeploymentVariable -> DeploymentVariable * option error.
Variable json_Unmarshal_PaginatedDeploymentVariables :
  string -> PaginatedDeploymentVariables ->
  PaginatedDeploymentVariables * option error.

(** [fmt.Sprintf(format)] with no operands, as [Delete] applies it to an
    already formatted path. *)
Variable fmt_Sprintf0 : string -> string.

(** What a callback runs on: the local record, the remote service and
    the requests issued so far. *)
Record State : Type := mkState {
  rd : ResourceData;
  world : World;
  trace : list Event
}.

Definition Op (A : Type) : Type := M State A.

(** *** The local record *)

Definition d_Id : Op string := fun st => (Value (Id (rd st)), st).
Definition d_Get_uuid : Op string := fun st => (Value (f_uuid (rd st)), st).
Definition d_Get_key : Op string := fun st => (Value (f_key (rd st)), st).
Definition d_Get_value : Op string := fun st => (Value (f_value (rd st)), st).
Definition d_Get_secured : Op bool :=
  fun st => (Value (f_secured (rd st)), st).
Definition d_Get_deployment : Op string :=
  fun st => (Value (f_deployment (rd st)), st).

Definition modify_rd (f : ResourceData -> ResourceData) : Op unit :=
  fun st =>
    (Value tt, {| rd := f (rd st); world := world st; trace := trace st |}).

Definition d_SetId (v : string) : Op unit := modify_rd (with_Id v).
Definition d_Set_uuid (v : string) : Op unit := modify_rd (with_uuid v).
Definition d_Set_key (v : string) : Op unit := modify_rd (with_key v).
Definition d_Set_value (v : string) : Op unit := modify_rd (with_value v).
Definition d_Set_secured (v : bool) : Op unit := modify_rd (with_secured v).

(** *** The outside *)

Definition emit (e : Event) (w : World) (st : State) : State :=
  {| rd := rd st; world := w; trace := trace st ++ [e] |}.

Definition client_Get (m : Client) (path : string)
  : Op (option Response * option error) :=
  fun st =>
    let '(r, w) := Get m path (world st) in (Value r, emit (EvGet path) w st).

Definition client_Post (m : Client) (path payload : string)
  : Op (option Response * option error) :=
  fun st =>
    let '(r, w) := Post m path payload (world st) in
    (Value r, emit (EvPost path payload) w st).

Definition client_Put (m : Client) (path payload : string)
  : Op (option Response * option error) :=
  fun st =>
    let '(r, w) := Put m path payload (world st) in
    (Value r, emit (EvPut path payload) w st).

Definition client_Delete (m : Client) (path : string)
  : Op (option Response * option error) :=
  fun st =>
    let '(r, w) := Delete m path (world st) in
    (Value r, emit (EvDelete path) w st).

Definition time_Sleep (duration : Z) : Op unit :=
  fun st => (Value tt, emit (EvSleep duration) (world st) st).

(** *** The callbacks *)

(** <<
    func newDeploymentVariableFromResource(d *schema.ResourceData) *DeploymentVariable {
        dv := &DeploymentVariable{
            Key:     d.Get("key").(string),
            Value:   d.Get("value").(string),
            Secured: d.Get("secured").(bool),
        }
        return dv
    }
>> *)
Definition newDeploymentVariableFromResource : Op DeploymentVariable :=
  k <- d_Get_key ;;
  v <- d_Get_value ;;
  s <- d_Get_secured ;;
  ret {| Key := k; Value_ := v; UUID := ""; Secured := s |}.

(** The [for _, rv := range prv.Values] loop of Read; the result tells
    whether the loop body returned from the function. *)
Fixpoint range_Values (uuid : string) (values : list DeploymentVariable)
  : Op bool :=
  match values with
  | [] => ret false
  | rv :: rest =>
      if String.eqb (UUID rv) uuid then
        d_SetId (UUID rv) ;;
        d_Set_key (Key rv) ;;
        d_Set_value (Value_ rv) ;;
        d_Set_secured (Secured rv) ;;
        ret true
      else range_Values uuid rest
  end.

(** The end of Read, from [if rvReq.StatusCode == 404] on. *)
Definition Read_after_list (rvReq : Response) : Op (option error) :=
  if StatusCode rvReq =? 404 then
    d_SetId "" ;;
    ret None
  else ret None.

(** [resourceDeploymentVariableRead(d, m)].  The error of [client.Get]
    is assigned to the blank identifier; [rvReq.StatusCode] is the first
    use of the response pointer.  The [log.Printf] line changes neither
    the record nor the result and is left out. *)
Definition resourceDeploymentVariableRead (m : Client) : Op (option error) :=
  dep <- d_Get_deployment ;;
  '(repository, deployment) <- lift (parseDeploymentId dep) ;;
  '(rvReq, _) <- client_Get m (variablesPath repository deployment) ;;
  rvReq <- deref rvReq ;;
  if StatusCode rvReq =? 200 then
    match ioutil_ReadAll (Body rvReq) with
    | (_, Some err) => ret (Some err)
    | (body, None) =>
        match json_Unmarshal_PaginatedDeploymentVariables
                body zero_PaginatedDeploymentVariables with
        | (_, Some err) => ret (Some err)
        | (prv, None) =>
            if Size prv <? 1 then
              d_SetId "" ;;
              ret None
            else
              uuid <- d_Get_uuid ;;
              returned <- range_Values uuid (Values prv) ;;
              if returned : bool then ret None
              else
                d_SetId "" ;;
                Read_after_list rvReq
        end
    end
  else Read_after_list rvReq.

(** [resourceDeploymentVariableCreate(d, m)]. *)
Definition resourceDeploymentVariableCreate (m : Client) : Op (option error) :=
  rvcr <- newDeploymentVariableFromResource ;;
  match json_Marshal rvcr with
  | (_, Some err) => ret (Some err)
  | (bytedata, None) =>
      dep <- d_Get_deployment ;;
      '(repository, deployment) <- lift (parseDeploymentId dep) ;;
      '(req, err) <- client_Post m (variablesPath repository deployment)
                                 bytedata ;;
      match err with
      | Some err => ret (Some err)
      | None =>
          req <- deref req ;;
          match ioutil_ReadAll (Body req) with
          | (_, Some err) => ret (Some err)
          | (body, None) =>
              match json_Unmarshal_DeploymentVariable
                      body zero_DeploymentVariable with
              | (_, Some err) => ret (Some err)
              | (rv, None) =>
                  d_Set_uuid (UUID rv) ;;
                  d_SetId (UUID rv) ;;
                  time_Sleep (5000 * Millisecond) ;;
                  resourceDeploymentVariableRead m
              end
          end
      end
  end.

(** [resourceDeploymentVariableUpdate(d, m)]. *)
Definition resourceDeploymentVariableUpdate (m : Client) : Op (option error) :=
  rvcr <- newDeploymentVariableFromResource ;;
  match json_Marshal rvcr with
  | (_, Some err) => ret (Some err)
  | (bytedata, None) =>
      dep <- d_Get_deployment ;;
      '(repository, deployment) <- lift (parseDeploymentId dep) ;;
      uuid <- d_Get_uuid ;;
      '(req, err) <- client_Put m (variablePath repository deployment uuid)
                                bytedata ;;
      match err with
      | Some err => ret (Some err)
      | None =>
          req <- deref req ;;
          if negb (StatusCode req =? 200) then ret None
          else resourceDeploymentVariableRead m
      end
  end.

(** [resourceDeploymentVariableDelete(d, m)]: the path is formatted
    twice, the response is dropped and the error returned as it is. *)
Definition resourceDeploymentVariableDelete (m : Client) : Op (option error) :=
  dep <- d_Get_deployment ;;
  '(repository, deployment) <- lift (parseDeploymentId dep) ;;
  uuid <- d_Get_uuid ;;
  '(_, err) <- client_Delete m
                 (fmt_Sprintf0 (variablePath repository deployment uuid)) ;;
  ret err.

(** *** Vocabulary of the statements *)

(** The payload an operation sends for a record. *)
Definition payload_of (d : ResourceData) : DeploymentVariable :=
  {| Key := f_key d; Value_ := f_value d; UUID := "";
     Secured := f_secured d |}.

(** The record after a matching entry of the page has been copied. *)
Definition copied (rv : DeploymentVariable) (d : ResourceData)
  : ResourceData :=
  {| Id := UUID rv; f_uuid := f_uuid d; f_key := Key rv;
     f_value := Value_ rv; f_secured := Secured rv;
     f_deployment := f_deployment d |}.

(** The body of a response can be read and is a page. *)
Definition decodes_to (resp : Response) (prv : PaginatedDeploymentVariables)
  : Prop :=
  exists body,
    ioutil_ReadAll (Body resp) = (body, None) /\
    json_Unmarshal_PaginatedDeploymentVariables
      body zero_PaginatedDeploymentVariables = (prv, None).

(** The three answers to the list request on which the variable counts
    as absent: status 200 with a size below 1, status 200 with no entry
    of the page carrying the local uuid, status 404. *)
Definition absent (resp : Response) (d : ResourceData) : Prop :=
  (StatusCode resp = 200 /\
   exists prv, decodes_to resp prv /\
     (Size prv < 1 \/
      forall rv, In rv (Values prv) -> UUID rv <> f_uuid d))
  \/ StatusCode resp = 404.

(** The state after the list request of Read, with local record [d]. *)
Definition listed (st : State) (path : string) (w : World)
    (d : ResourceData) : State :=
  {| rd := d; world := w; trace := trace st ++ [EvGet path] |}.

End Resource.

Arguments Get {World} _ _ _.
Arguments Post {World} _ _ _ _.
Arguments Put {World} _ _ _ _.
Arguments Delete {World} _ _ _.
Arguments rd {World} _.
Arguments world {World} _.
Arguments trace {World} _.
Arguments mkState {World} _ _ _.
Arguments mkClient {World} _ _ _ _.

(* ================================================================== *)
(** ** Test doubles

    A client and codecs small enough to run the callbacks on concrete
    inputs. *)

Definition answer : Type := option Response * option error.

(** A service without state that gives each method one fixed answer. *)
Definition fixed_client (get post put delete : answer) : Client unit :=
  {| Get := fun _ w => (get, w);
     Post := fun _ _ w => (post, w);
     Put := fun _ _ w => (put, w);
     Delete := fun _ w => (delete, w) |}.

(** A decoder given by a table from body texts to values; any other body
    is a syntax error and leaves the target as it was. *)
Definition table_Unmarshal {T : Type} (table : list (string * T))
    (body : string) (v : T) : T * option error :=
  match find (fun entry => String.eqb (fst entry) body) table with
  | Some entry => (snd entry, None)
  | None => (v, Some (Error "invalid character looking for beginning of value"))
  end.

(** An encoder that never fails and writes the three payload fields. *)
Definition plain_Marshal (dv : DeploymentVariable) : string * option error :=
  ("{key:" ++ Key dv ++ ",value:" ++ Value_ dv ++ ",secured:"
   ++ (if Secured dv then "true" else "false") ++ "}", None).

Definition ok_body (text : string) : ReadCloser :=
  {| content := text; read_error := None |}.

Definition var_u1 : DeploymentVariable :=
  {| Key := "k"; Value_ := "v"; UUID := "u1"; Secured := false |}.

Definition var_u1_remote : DeploymentVariable :=
  {| Key := "k2"; Value_ := "v2"; UUID := "u1"; Secured := true |}.

Definition var_u2 : DeploymentVariable :=
  {| Key := "other"; Value_ := "w"; UUID := "u2"; Secured := false |}.

Definition variable_bodies : list (string * DeploymentVariable) :=
  [("created-u1", var_u1)].

Definition page_bodies : list (string * PaginatedDeploymentVariables) :=
  [("page-u2-u1", {| Values := [var_u2; var_u1_remote]; Page := 1; Size := 2;
                     Next := "" |});
   ("page-u2", {| Values := [var_u2]; Page := 1; Size := 1; Next := "" |});
   ("page-empty", {| Values := []; Page := 1; Size := 0; Next := "" |});
   ("page-u1-without-size",
     {| Values := [var_u1_remote]; Page := 0; Size := 0; Next := "" |})].

Definition respond (status : Z) (text : string) : Response :=
  {| StatusCode := status; Body := ok_body text |}.

(** A local record for the deployment ["repo:env"]. *)
Definition local_u1 : ResourceData :=
  {| Id := "u1"; f_uuid := "u1"; f_key := "k"; f_value := "v";
     f_secured := false; f_deployment := "repo:env" |}.

Definition start (d : ResourceData) : State unit :=
  {| rd := d; world := tt; trace := [] |}.

(** A record that has not been created yet. *)
Definition local_new : ResourceData :=
  {| Id := ""; f_uuid := ""; f_key := "k"; f_value := "v";
     f_secured := false; f_deployment := "repo:env" |}.

(** A record whose composite identifier has an empty repository. *)
Definition local_empty_repository : ResourceData :=
  {| Id := "u1"; f_uuid := "u1"; f_key := "k"; f_value := "v";
     f_secured := false; f_deployment := ":d" |}.

Definition no_answer : answer := (None, None).

Definition answers (status : Z) (text : string) : answer :=
  (Some (respond status text), None).

(** A response that comes with an error, as a client gives it for a
    status it does not accept. *)
Definition fails_with (status : Z) (text : string) : answer :=
  (Some (respond status text), Some (Error text)).

(** [fmt.Sprintf] of a format without a percent sign. *)
Definition plain_Sprintf0 (format : string) : string := format.

(** The callbacks on the test codecs. *)
Definition run_Read : Client unit -> Op unit (option error) :=
  resourceDeploymentVariableRead unit (table_Unmarshal page_bodies).

Definition run_Create : Client unit -> Op unit (option error) :=
  resourceDeploymentVariableCreate unit plain_Marshal
    (table_Unmarshal variable_bodies) (table_Unmarshal page_bodies).

Definition run_Update : Client unit -> Op unit (option error) :=
  resourceDeploymentVariableUpdate unit plain_Marshal
    (table_Unmarshal page_bodies).

Definition run_Delete : Client unit -> Op unit (option error) :=
  resourceDeploymentVariableDelete unit plain_Sprintf0.

(** A service that lists [var_u2] and the remote state of [u1], accepts a
    creation with the body of [var_u1] and rejects updates with 409. *)
Definition service : Client unit :=
  fixed_client (answers 200 "page-u2-u1") (answers 200 "created-u1")
    (answers 409 "conflict") (answers 204 "").

(** Services whose list is empty, lacks [u1], or comes without a size. *)
Definition service_empty : Client unit :=
  fixed_client (answers 200 "page-empty") no_answer no_answer no_answer.

Definition service_without_u1 : Client unit :=
  fixed_client (answers 200 "page-u2") no_answer no_answer no_answer.

Definition service_without_size : Client unit :=
  fixed_client (answers 200 "page-u1-without-size")
    no_answer no_answer no_answer.

(** A service every request to which fails. *)
Definition service_down : Client unit :=
  fixed_client (fails_with 500 "internal error") (fails_with 500 "internal error")
    (fails_with 500 "internal error") (fails_with 500 "internal error").

(** A record whose composite identifier has no colon. *)
Definition local_malformed : ResourceData :=
  {| Id := "u1"; f_uuid := "u1"; f_key := "k"; f_value := "v";
     f_secured := false; f_deployment := "repo-env" |}.


(** A service that cannot be reached: no response, only an error. *)
Definition unreachable : answer :=
  (None, Some (Error "dial tcp: connection refused")).

Definition service_unreachable : Client unit :=
  fixed_client unreachable unreachable unreachable unreachable.

(** A service whose bodies are not JSON. *)
Definition service_garbled : Client unit :=
  fixed_client (answers 200 "<html>") (answers 200 "<html>")
    (answers 200 "<html>") (answers 200 "<html>").

(** A response whose body breaks off while it is read. *)
Definition cut_off : Response :=
  {| StatusCode := 200;
     Body := {| content := "{"; read_error := Some (Error "unexpected EOF") |} |}.

Definition service_cut_off : Client unit :=
  fixed_client (Some cut_off, None) (Some cut_off, None)
    (Some cut_off, None) (Some cut_off, None).

(** A service that creates [u1] and does not list it yet. *)
Definition service_lagging : Client unit :=
  fixed_client (answers 200 "page-u2") (answers 200 "created-u1")
    no_answer no_answer.

(** A service that accepts updates. *)
Definition service_accepting : Client unit :=
  fixed_client (answers 200 "page-u2-u1") no_answer
    (answers 200 "updated") (answers 204 "").

(** Two bodies with the same entries and size, one of them with a link to
    a next page. *)
Definition paged_bodies : list (string * PaginatedDeploymentVariables) :=
  [("only-page", {| Values := [var_u2]; Page := 1; Size := 1; Next := "" |});
   ("first-of-two",
     {| Values := [var_u2]; Page := 1; Size := 1;
        Next := "https://api.bitbucket.org/2.0/variables?page=2" |})].

Definition service_only_page : Client unit :=
  fixed_client (answers 200 "only-page") no_answer no_answer no_answer.

Definition service_first_of_two : Client unit :=
  fixed_client (answers 200 "first-of-two") no_answer no_answer no_answer.

(** The event a run adds first to the trace it started from. *)
Definition first_event {World A} (st : State World)
    (run : Outcome A * State World) : option Event :=
  nth_error (trace (snd run)) (List.length (trace st)).

(* ================================================================== *)
(** ** Splitting at the first colon *)

Lemma substring_prefix_app (a b : string) :
  substring 0 (String.length a) (a ++ b) = a.
Proof.
  induction a as [|c a IH]; simpl.
  - now destruct b.
  - now rewrite IH.
Qed.

Lemma substring_skip_app (a b : string) (n k : nat) :
  substring (String.length a + n) k (a ++ b) = substring n k b.
Proof.
  induction a as [|c a IH]; simpl; auto.
Qed.

Lemma substring_whole (s : string) : substring 0 (String.length s) s = s.
Proof.
  induction s as [|c s IH]; simpl; [reflexivity | now rewrite IH].
Qed.

Lemma length_app (a b : string) :
  String.length (a ++ b) = (String.length a + String.length b)%nat.
Proof.
  induction a as [|c a IH]; simpl; auto.
Qed.

Lemma has_colon_String (c : ascii) (s : string) :
  has_colon (String c s) <-> c = colon \/ has_colon s.
Proof.
  unfold has_colon; simpl; intuition auto.
Qed.

(** One step of [Index] for the separator [":"]. *)
Lemma Index_colon_cons (c : ascii) (s : string) :
  strings.Index (String c s) ":" =
  if Ascii.ascii_dec colon c then 0
  else if strings.Index s ":" <? 0 then -1 else strings.Index s ":" + 1.
Proof.
  cbn [strings.Index prefix]. unfold colon.
  destruct (Ascii.ascii_dec ":" c); [now destruct s | reflexivity].
Qed.

(** No colon, no index. *)
Lemma Index_no_colon (s : string) :
  ~ has_colon s -> strings.Index s ":" = -1.
Proof.
  induction s as [|c s IH]; intros H; [reflexivity|].
  rewrite has_colon_String in H. rewrite Index_colon_cons.
  destruct (Ascii.ascii_dec colon c) as [E|_].
  - exfalso. apply H. now left.
  - rewrite IH by tauto. reflexivity.
Qed.

(** The index of the first colon is the length of the colon-free text
    before it. *)
Lemma Index_first_colon (a b : string) :
  ~ has_colon a -> strings.Index (a ++ ":" ++ b) ":" = strings.len a.
Proof.
  unfold strings.len.
  induction a as [|c a IH]; intros H.
  - change ("" ++ ":" ++ b) with (String colon b).
    rewrite Index_colon_cons.
    destruct (Ascii.ascii_dec colon colon); [reflexivity | contradiction].
  - rewrite has_colon_String in H.
    change (String c a ++ ":" ++ b) with (String c (a ++ ":" ++ b)).
    rewrite Index_colon_cons.
    destruct (Ascii.ascii_dec colon c) as [E|_].
    { exfalso. apply H. now left. }
    rewrite IH by tauto.
    destruct (Z.of_nat (String.length a) <? 0) eqn:E; [lia|].
    cbn [String.length]. lia.
Qed.

(** A string with a colon splits at its first one. *)
Lemma first_colon_split (s : string) :
  has_colon s -> exists a b, s = a ++ ":" ++ b /\ ~ has_colon a.
Proof.
  induction s as [|c s IH]; intros H.
  - destruct H.
  - destruct (Ascii.ascii_dec c colon) as [->|Hc].
    + exists "", s. split; [reflexivity | intros []].
    + apply has_colon_String in H. destruct H as [H|H]; [contradiction|].
      destruct (IH H) as (a & b & -> & Ha).
      exists (String c a), b. split; [reflexivity|].
      rewrite has_colon_String. tauto.
Qed.

Lemma has_colon_app (a b : string) : has_colon (a ++ ":" ++ b).
Proof.
  induction a as [|c a IH].
  - now left.
  - change (String c a ++ ":" ++ b) with (String c (a ++ ":" ++ b)).
    apply has_colon_String. now right.
Qed.

Lemma parseDeploymentId_no_colon (s : string) :
  ~ has_colon s -> parseDeploymentId s = Panic (IndexOutOfRange 1 1).
Proof.
  intros H. unfold parseDeploymentId, strings.SplitN.
  cbn [Z.eqb Z.ltb Z.compare].
  destruct (2 >? strings.len s + 1) eqn:E.
  - assert (strings.len s = 0) as L by (unfold strings.len in *; lia).
    rewrite L. reflexivity.
  - change (Z.to_nat (2 - 1)) with 1%nat. cbn [strings.genSplit_loop].
    rewrite (Index_no_colon s H). reflexivity.
Qed.

Lemma parseDeploymentId_split (a b : string) :
  ~ has_colon a -> parseDeploymentId (a ++ ":" ++ b) = Value (a, b).
Proof.
  intros H. unfold parseDeploymentId, strings.SplitN.
  cbn [Z.eqb Z.ltb Z.compare].
  assert (strings.len (a ++ ":" ++ b) = strings.len a + 1 + strings.len b) as L.
  { unfold strings.len. rewrite !length_app. cbn [String.length]. lia. }
  destruct (2 >? strings.len (a ++ ":" ++ b) + 1) eqn:E.
  { unfold strings.len in *. lia. }
  change (Z.to_nat (2 - 1)) with 1%nat. cbn [strings.genSplit_loop].
  rewrite (Index_first_colon a b H).
  assert (0 <= strings.len a) as La by (unfold strings.len; lia).
  destruct (Z.ltb_spec (strings.len a) 0) as [E0|_]; [lia|].
  unfold strings.slice_from, strings.slice. rewrite L.
  change (strings.len ":") with 1.
  replace (Z.to_nat (strings.len a - 0)) with (String.length a)
    by (unfold strings.len; lia).
  replace (Z.to_nat (strings.len a + 1))
    with (String.length a + 1)%nat by (unfold strings.len; lia).
  replace (Z.to_nat (strings.len a + 1 + strings.len b - (strings.len a + 1)))
    with (String.length b) by (unfold strings.len; lia).
  change (Z.to_nat 0) with 0%nat.
  rewrite substring_prefix_app, substring_skip_app.
  cbn [append substring]. rewrite substring_whole. reflexivity.
Qed.

(** C1: on an input without a colon [parseDeploymentId] does not return
    an error value, it panics with "index out of range [1] with length 1";
    and a panic is the outcome exactly when the input has no colon. *)
Theorem parseDeploymentId_panics_iff_no_colon (str : string) :
  (parseDeploymentId str = Panic (IndexOutOfRange 1 1) <-> ~ has_colon str)
  /\ (is_panic (parseDeploymentId str) = true <-> ~ has_colon str).
Proof.
  assert (has_colon str -> is_panic (parseDeploymentId str) = false) as Hc.
  { intros H. destruct (first_colon_split str H) as (a & b & -> & Ha).
    now rewrite parseDeploymentId_split. }
  split; split; intros H.
  - intros C. apply Hc in C. rewrite H in C. discriminate.
  - now apply parseDeploymentId_no_colon.
  - intros C. apply Hc in C. congruence.
  - now rewrite parseDeploymentId_no_colon.
Qed.

(** C4: an input with at least one colon is split at its first colon
    only: the first component is the colon-free text before it, the second
    is all that follows, colons included; ["a:b:c"] gives
    [("a", "b:c")]. *)
Theorem parseDeploymentId_splits_at_first_colon (str : string) :
  (has_colon str ->
   exists a b, str = a ++ ":" ++ b /\ ~ has_colon a
               /\ parseDeploymentId str = Value (a, b))
  /\ parseDeploymentId "a:b:c" = Value ("a", "b:c").
Proof.
  split; [|reflexivity].
  intros H. destruct (first_colon_split str H) as (a & b & -> & Ha).
  exists a, b. repeat split; auto using parseDeploymentId_split.
Qed.

Lemma parseDeploymentId_splits_at_first_colon_witness :
  has_colon "repo:env:eu" /\
  exists a b, "repo:env:eu" = a ++ ":" ++ b /\ ~ has_colon a
              /\ parseDeploymentId "repo:env:eu" = Value (a, b).
Proof.
  assert (has_colon "repo:env:eu") as H by (unfold has_colon; simpl; tauto).
  split; [exact H|].
  exact (proj1 (parseDeploymentId_splits_at_first_colon "repo:env:eu") H).
Defined.

(* ================================================================== *)
(** ** The callbacks *)

Section Properties.

Variable World : Type.
Variable json_Marshal : DeploymentVariable -> string * option error.
Variable json_Unmarshal_DeploymentVariable :
  string -> DeploymentVariable -> DeploymentVariable * option error.
Variable json_Unmarshal_PaginatedDeploymentVariables :
  string -> PaginatedDeploymentVariables ->
  PaginatedDeploymentVariables * option error.
Variable fmt_Sprintf0 : string -> string.

Local Abbreviation Read :=
  (resourceDeploymentVariableRead World
     json_Unmarshal_PaginatedDeploymentVariables).
Local Abbreviation Create :=
  (resourceDeploymentVariableCreate World json_Marshal
     json_Unmarshal_DeploymentVariable
     json_Unmarshal_PaginatedDeploymentVariables).
Local Abbreviation Update :=
  (resourceDeploymentVariableUpdate World json_Marshal
     json_Unmarshal_PaginatedDeploymentVariables).
Local Abbreviation Delete_ := (resourceDeploymentVariableDelete World fmt_Sprintf0).
Local Abbreviation decodes :=
  (decodes_to json_Unmarshal_PaginatedDeploymentVariables).
Local Abbreviation is_absent :=
  (absent json_Unmarshal_PaginatedDeploymentVariables).

Ltac step :=
  unfold resourceDeploymentVariableRead, resourceDeploymentVariableCreate,
    resourceDeploymentVariableUpdate, resourceDeploymentVariableDelete,
    newDeploymentVariableFromResource, Read_after_list,
    client_Get, client_Post, client_Put, client_Delete, time_Sleep,
    d_Get_deployment, d_Get_uuid, d_Get_key, d_Get_value, d_Get_secured,
    d_SetId, d_Set_uuid, d_Set_key, d_Set_value, d_Set_secured, modify_rd,
    deref, bind, lift, ret, emit, listed;
  cbn [rd world trace fst snd].

(** *** The scan of the page *)

Lemma range_Values_no_match (uuid : string)
    (values : list DeploymentVariable) (st : State World) :
  (forall rv, In rv values -> UUID rv <> uuid) ->
  range_Values World uuid values st = (Value false, st).
Proof.
  induction values as [|rv rest IH]; intros H; [reflexivity|].
  cbn [range_Values].
  destruct (String.eqb_spec (UUID rv) uuid) as [E|_].
  - exfalso. apply (H rv); [now left | exact E].
  - apply IH. intros x Hx. apply H. now right.
Qed.

Lemma range_Values_first_match (uuid : string)
    (pre post : list DeploymentVariable) (rv : DeploymentVariable)
    (st : State World) :
  (forall x, In x pre -> UUID x <> uuid) ->
  UUID rv = uuid ->
  range_Values World uuid (pre ++ rv :: post)%list st
  = (Value true,
     {| rd := with_secured (Secured rv)
                (with_value (Value_ rv)
                   (with_key (Key rv) (with_Id (UUID rv) (rd st))));
        world := world st; trace := trace st |}).
Proof.
  induction pre as [|x pre IH]; intros Hpre Hrv.
  - cbn [app range_Values].
    destruct (String.eqb_spec (UUID rv) uuid) as [_|N]; [|contradiction].
    reflexivity.
  - cbn [app range_Values].
    destruct (String.eqb_spec (UUID x) uuid) as [E|_].
    + exfalso. apply (Hpre x); [now left | exact E].
    + apply IH; [|exact Hrv]. intros y Hy. apply Hpre. now right.
Qed.

(** A page with a matching entry has a first one. *)
Lemma first_match (uuid : string) (values : list DeploymentVariable) :
  (exists rv, In rv values /\ UUID rv = uuid) ->
  exists pre rv post,
    values = (pre ++ rv :: post)%list /\
    (forall x, In x pre -> UUID x <> uuid) /\ UUID rv = uuid.
Proof.
  induction values as [|x rest IH]; intros (rv & Hin & Hrv).
  - destruct Hin.
  - destruct (String.string_dec (UUID x) uuid) as [E|N].
    + exists [], x, rest. repeat split; [intros y []|exact E].
    + destruct IH as (pre & rv' & post & -> & Hpre & Hrv').
      { destruct Hin as [->|Hin]; [contradiction|]. now exists rv. }
      exists (x :: pre), rv', post. repeat split; [|exact Hrv'].
      intros y [<-|Hy]; auto.
Qed.

(** *** Read, case by case *)

Section ReadCases.

Variable m : Client World.
Variable st : State World.
Variables repository deployment : string.
Variable resp : Response.
Variable err : option error.
Variable w' : World.

Hypothesis Hparse :
  parseDeploymentId (f_deployment (rd st)) = Value (repository, deployment).
Hypothesis Hget :
  Get m (variablesPath repository deployment) (world st)
  = ((Some resp, err), w').

Local Abbreviation after d :=
  (listed World st (variablesPath repository deployment) w' d).

Lemma Read_status_404 :
  StatusCode resp = 404 ->
  Read m st = (Value None, after (with_Id "" (rd st))).
Proof.
  intros Hs. step. rewrite Hparse, Hget. cbn. rewrite Hs. reflexivity.
Qed.

Lemma Read_status_other :
  StatusCode resp <> 200 -> StatusCode resp <> 404 ->
  Read m st = (Value None, after (rd st)).
Proof.
  intros H200 H404. step. rewrite Hparse, Hget. cbn.
  destruct (Z.eqb_spec (StatusCode resp) 200); [contradiction|].
  destruct (Z.eqb_spec (StatusCode resp) 404); [contradiction|].
  reflexivity.
Qed.

Lemma Read_size_below_1 (prv : PaginatedDeploymentVariables) :
  StatusCode resp = 200 -> decodes resp prv -> Size prv < 1 ->
  Read m st = (Value None, after (with_Id "" (rd st))).
Proof.
  intros Hs (body & [= Hbody Hread] & Hjson) Hsize. step.
  rewrite Hparse, Hget. cbn. rewrite Hs. cbn. rewrite Hread, Hbody, Hjson.
  destruct (Z.ltb_spec (Size prv) 1); [reflexivity | lia].
Qed.

Lemma Read_no_match (prv : PaginatedDeploymentVariables) :
  StatusCode resp = 200 -> decodes resp prv -> 1 <= Size prv ->
  (forall rv, In rv (Values prv) -> UUID rv <> f_uuid (rd st)) ->
  Read m st = (Value None, after (with_Id "" (rd st))).
Proof.
  intros Hs (body & [= Hbody Hread] & Hjson) Hsize Hno. step.
  rewrite Hparse, Hget. cbn. rewrite Hs. cbn. rewrite Hread, Hbody, Hjson.
  destruct (Z.ltb_spec (Size prv) 1); [lia|].
  rewrite range_Values_no_match by exact Hno.
  reflexivity.
Qed.

Lemma Read_first_match (prv : PaginatedDeploymentVariables)
    (pre post : list DeploymentVariable) (rv : DeploymentVariable) :
  StatusCode resp = 200 -> decodes resp prv -> 1 <= Size prv ->
  Values prv = (pre ++ rv :: post)%list ->
  (forall x, In x pre -> UUID x <> f_uuid (rd st)) ->
  UUID rv = f_uuid (rd st) ->
  Read m st = (Value None, after (copied rv (rd st))).
Proof.
  intros Hs (body & [= Hbody Hread] & Hjson) Hsize Hvalues Hpre Hrv. step.
  rewrite Hparse, Hget. cbn. rewrite Hs. cbn. rewrite Hread, Hbody, Hjson.
  destruct (Z.ltb_spec (Size prv) 1); [lia|].
  rewrite Hvalues, (range_Values_first_match _ pre post rv) by assumption.
  reflexivity.
Qed.

Lemma Read_absent :
  is_absent resp (rd st) ->
  Read m st = (Value None, after (with_Id "" (rd st))).
Proof.
  intros [(Hs & prv & Hdec & Hcase)|Hs]; [|now apply Read_status_404].
  destruct (Z.lt_ge_cases (Size prv) 1) as [Hlt|Hge].
  - now apply (Read_size_below_1 prv).
  - destruct Hcase as [Hlt|Hno]; [lia|]. now apply (Read_no_match prv).
Qed.

End ReadCases.

(** *** What Read depends on *)

(** The scan either finds nothing in any state, or finds the same entry
    in every state. *)
Lemma range_Values_uniform (uuid : string)
    (values : list DeploymentVariable) :
  (forall st, range_Values World uuid values st = (Value false, st))
  \/ exists rv, UUID rv = uuid /\
       forall st, range_Values World uuid values st
                  = (Value true,
                     {| rd := copied rv (rd st); world := world st;
                        trace := trace st |}).
Proof.
  induction values as [|x rest IH].
  - left. reflexivity.
  - cbn [range_Values].
    destruct (String.eqb_spec (UUID x) uuid) as [E|_]; [|exact IH].
    right. exists x. split; [exact E|]. reflexivity.
Qed.

Lemma settles_id : settles (fun d => d).
Proof. intros d. auto. Qed.

Lemma settles_with_Id (v : string) : settles (with_Id v).
Proof. intros d. auto. Qed.

Lemma settles_copied (rv : DeploymentVariable) : settles (copied rv).
Proof. intros d. auto. Qed.

(** Once the composite identifier is parsed, the result of Read and the
    change to the local record are fixed by the response pointer and the
    local uuid; the world and the trace move as the one list request
    moves them. *)
Lemma Read_determined (m : Client World) (dep uuid r e : string)
    (a : option Response) :
  parseDeploymentId dep = Value (r, e) ->
  exists o X, settles X /\
    forall st err w',
      f_deployment (rd st) = dep -> f_uuid (rd st) = uuid ->
      Get m (variablesPath r e) (world st) = ((a, err), w') ->
      Read m st = (o, listed World st (variablesPath r e) w' (X (rd st))).
Proof.
  intros Hparse.
  assert (forall o X, settles X ->
            (forall st : State World, f_deployment (rd st) = dep ->
               f_uuid (rd st) = uuid ->
               forall (err : option error) (w' : World),
               Get m (variablesPath r e) (world st) = ((a, err), w') ->
               Read m st
               = (o, listed World st (variablesPath r e) w' (X (rd st)))) ->
            exists o X, settles X /\
              forall st err w',
                f_deployment (rd st) = dep -> f_uuid (rd st) = uuid ->
                Get m (variablesPath r e) (world st) = ((a, err), w') ->
                Read m st
                = (o, listed World st (variablesPath r e) w' (X (rd st))))
    as pack.
  { intros o X HX H. exists o, X. split; [exact HX|].
    intros st err w' Hd Hu Hg. exact (H st Hd Hu err w' Hg). }
  destruct a as [resp|].
  2:{ apply (pack (Panic NilDereference) (fun d => d) settles_id).
      intros st Hd Hu err w' Hg. step. rewrite Hd, Hparse, Hg.
      reflexivity. }
  destruct (Z.eqb_spec (StatusCode resp) 200) as [Hs|Hs].
  2:{ destruct (Z.eq_dec (StatusCode resp) 404) as [H404|H404].
      - apply (pack (Value None) (with_Id "") (settles_with_Id "")).
        intros st Hd Hu err w' Hg. rewrite <- Hd in Hparse.
        apply (Read_status_404 m st r e resp err w' Hparse Hg H404).
      - apply (pack (Value None) (fun d => d) settles_id).
        intros st Hd Hu err w' Hg. rewrite <- Hd in Hparse.
        apply (Read_status_other m st r e resp err w' Hparse Hg Hs H404). }
  destruct (read_error (Body resp)) as [rerr|] eqn:Hread.
  { apply (pack (Value (Some rerr)) (fun d => d) settles_id).
    intros st Hd Hu err w' Hg. step. rewrite Hd, Hparse, Hg. cbn.
    rewrite Hs. cbn. rewrite Hread. reflexivity. }
  destruct (json_Unmarshal_PaginatedDeploymentVariables
              (content (Body resp)) zero_PaginatedDeploymentVariables)
    as [prv [jerr|]] eqn:Hjson.
  { apply (pack (Value (Some jerr)) (fun d => d) settles_id).
    intros st Hd Hu err w' Hg. step. rewrite Hd, Hparse, Hg. cbn.
    rewrite Hs. cbn. rewrite Hread, Hjson. reflexivity. }
  assert (decodes resp prv) as Hdec.
  { exists (content (Body resp)). unfold ioutil_ReadAll.
    rewrite Hread. auto. }
  destruct (Z.lt_ge_cases (Size prv) 1) as [Hlt|Hge].
  { apply (pack (Value None) (with_Id "") (settles_with_Id "")).
    intros st Hd Hu err w' Hg. rewrite <- Hd in Hparse.
    apply (Read_size_below_1 m st r e resp err w' Hparse Hg prv Hs Hdec Hlt). }
  destruct (range_Values_uniform uuid (Values prv)) as [Hno|(rv & Hrv & Hyes)].
  - apply (pack (Value None) (with_Id "") (settles_with_Id "")).
    intros st Hd Hu err w' Hg. step. rewrite Hd, Hparse, Hg. cbn.
    rewrite Hs. cbn. rewrite Hread, Hjson.
    destruct (Z.ltb_spec (Size prv) 1); [lia|].
    cbn [rd]. rewrite Hu, Hno. reflexivity.
  - apply (pack (Value None) (copied rv) (settles_copied rv)).
    intros st Hd Hu err w' Hg. step. rewrite Hd, Hparse, Hg. cbn.
    rewrite Hs. cbn. rewrite Hread, Hjson.
    destruct (Z.ltb_spec (Size prv) 1); [lia|].
    cbn [rd]. rewrite Hu, Hyes. reflexivity.
Qed.

(** Read issues its list request and nothing else. *)
Lemma Read_trace (m : Client World) (st : State World) (r e : string) :
  parseDeploymentId (f_deployment (rd st)) = Value (r, e) ->
  trace (snd (Read m st))
  = (trace st ++ [EvGet (variablesPath r e)])%list.
Proof.
  intros Hparse.
  destruct (Get m (variablesPath r e) (world st)) as [[a err] w'] eqn:Hg.
  destruct (Read_determined m _ (f_uuid (rd st)) r e a Hparse)
    as (o & X & _ & H).
  rewrite (H st err w' eq_refl eq_refl Hg). reflexivity.
Qed.

Lemma nth_error_first_new {A} (l tl : list A) (x : A) :
  nth_error (l ++ x :: tl)%list (List.length l) = Some x.
Proof.
  induction l as [|y l IH]; [reflexivity | exact IH].
Qed.

(** *** Read *)

(** C3: when the list request of Read is answered by a response that is
    status 200 with a decodable page of size below 1, or status 200 with
    a decodable page none of whose entries has the local uuid, or status
    404, Read sets the identity to the empty string and returns nil. *)
Theorem Read_clears_identity_when_absent
    (m : Client World) (st : State World) (r e : string)
    (resp : Response) (err : option error) (w' : World) :
  parseDeploymentId (f_deployment (rd st)) = Value (r, e) ->
  Get m (variablesPath r e) (world st) = ((Some resp, err), w') ->
  is_absent resp (rd st) ->
  exists st', Read m st = (Value None, st') /\ Id (rd st') = "".
Proof.
  intros Hparse Hget Habs.
  rewrite (Read_absent m st r e resp err w' Hparse Hget Habs).
  eexists. split; reflexivity.
Qed.

(** C9: in each of the cases in which Read clears the identity (size
    below 1, no entry of the page with the local uuid, status 404) the
    fields key, value, secured, uuid and deployment of the local record
    keep the values they had; the identity alone changes, to the empty
    string. *)
Theorem Read_clearing_identity_keeps_fields
    (m : Client World) (st : State World) (r e : string)
    (resp : Response) (err : option error) (w' : World) :
  parseDeploymentId (f_deployment (rd st)) = Value (r, e) ->
  Get m (variablesPath r e) (world st) = ((Some resp, err), w') ->
  is_absent resp (rd st) ->
  let d' := rd (snd (Read m st)) in
  Id d' = "" /\ f_uuid d' = f_uuid (rd st) /\ f_key d' = f_key (rd st)
  /\ f_value d' = f_value (rd st) /\ f_secured d' = f_secured (rd st)
  /\ f_deployment d' = f_deployment (rd st).
Proof.
  intros Hparse Hget Habs.
  rewrite (Read_absent m st r e resp err w' Hparse Hget Habs).
  cbn. repeat split.
Qed.

(** C6, amended: when the list request of Read is answered with status
    200 and a decodable page whose size is at least 1 and which has an
    entry with the local uuid, Read copies key, value and secured of the
    first such entry into the local record, sets the identity to its
    uuid (the uuid field already has that value) and returns nil. *)
Theorem Read_copies_first_matching_entry
    (m : Client World) (st : State World) (r e : string)
    (resp : Response) (err : option error) (w' : World)
    (prv : PaginatedDeploymentVariables) :
  parseDeploymentId (f_deployment (rd st)) = Value (r, e) ->
  Get m (variablesPath r e) (world st) = ((Some resp, err), w') ->
  StatusCode resp = 200 -> decodes resp prv -> 1 <= Size prv ->
  (exists x, In x (Values prv) /\ UUID x = f_uuid (rd st)) ->
  exists pre rv post st',
    Values prv = (pre ++ rv :: post)%list /\
    (forall x, In x pre -> UUID x <> f_uuid (rd st)) /\
    UUID rv = f_uuid (rd st) /\
    Read m st = (Value None, st') /\
    Id (rd st') = UUID rv /\ f_uuid (rd st') = UUID rv /\
    f_key (rd st') = Key rv /\ f_value (rd st') = Value_ rv /\
    f_secured (rd st') = Secured rv /\
    f_deployment (rd st') = f_deployment (rd st).
Proof.
  intros Hparse Hget Hs Hdec Hsize Hex.
  destruct (first_match _ _ Hex) as (pre & rv & post & Hv & Hpre & Hrv).
  exists pre, rv, post. eexists.
  split; [exact Hv|]. split; [exact Hpre|]. split; [exact Hrv|].
  split.
  - apply (Read_first_match m st r e resp err w' Hparse Hget
             prv pre post rv Hs Hdec Hsize Hv Hpre Hrv).
  - cbn. rewrite Hrv. repeat split.
Qed.

(** C8: Read is idempotent.  When the service answers the list request
    after a first Read as it answered it before, a second Read returns
    what the first returned and leaves the local record as the first
    left it. *)
Theorem Read_idempotent (m : Client World) (st : State World) :
  (forall path,
      fst (Get m path (world (snd (Read m st))))
      = fst (Get m path (world st))) ->
  fst (Read m (snd (Read m st))) = fst (Read m st)
  /\ rd (snd (Read m (snd (Read m st)))) = rd (snd (Read m st)).
Proof.
  intros Hsame.
  destruct (parseDeploymentId (f_deployment (rd st)))
    as [[r e]|p] eqn:Hparse.
  2:{ assert (Read m st = (Panic p, st)) as H1.
      { step. rewrite Hparse. reflexivity. }
      rewrite H1. cbn [snd]. rewrite H1. auto. }
  destruct (Get m (variablesPath r e) (world st)) as [[a err] w1] eqn:Hg.
  destruct (Read_determined m _ (f_uuid (rd st)) r e a Hparse)
    as (o & X & HX & H).
  pose proof (H st err w1 eq_refl eq_refl Hg) as H1.
  specialize (Hsame (variablesPath r e)).
  rewrite H1, Hg in Hsame. cbn [snd fst world listed] in Hsame.
  rewrite H1. cbn [snd fst].
  destruct (Get m (variablesPath r e) w1) as [[a2 err2] w2] eqn:Hg2.
  cbn [fst] in Hsame. injection Hsame as -> ->.
  destruct (HX (rd st)) as (Hu & Hd & Hidem).
  rewrite (H (listed World st (variablesPath r e) w1 (X (rd st))) err w2);
    [| exact Hd | exact Hu | exact Hg2].
  cbn. split; [reflexivity | exact Hidem].
Qed.

(** *** Create, Update, Delete *)

Lemma Create_after_marshal (m : Client World) (st : State World)
    (bytedata r e : string) (a : answer) (w' : World) :
  json_Marshal (payload_of (rd st)) = (bytedata, None) ->
  parseDeploymentId (f_deployment (rd st)) = Value (r, e) ->
  Post m (variablesPath r e) bytedata (world st) = (a, w') ->
  let posted := {| rd := rd st; world := w';
                   trace := trace st ++ [EvPost (variablesPath r e) bytedata] |} in
  Create m st =
  match a with
  | (_, Some err) => (Value (Some err), posted)
  | (None, None) => (Panic NilDereference, posted)
  | (Some req, None) =>
      match ioutil_ReadAll (Body req) with
      | (_, Some err) => (Value (Some err), posted)
      | (body, None) =>
          match json_Unmarshal_DeploymentVariable
                  body zero_DeploymentVariable with
          | (_, Some err) => (Value (Some err), posted)
          | (rv, None) =>
              Read m
                {| rd := with_Id (UUID rv) (with_uuid (UUID rv) (rd st));
                   world := w';
                   trace := trace st
                            ++ [EvPost (variablesPath r e) bytedata;
                                EvSleep (5000 * Millisecond)] |}
          end
      end
  end.
Proof.
  intros Hm Hparse Hpost posted. subst posted.
  unfold resourceDeploymentVariableCreate, newDeploymentVariableFromResource,
    client_Post, time_Sleep, d_Get_deployment, d_Get_key, d_Get_value,
    d_Get_secured, d_SetId, d_Set_uuid, modify_rd, deref, bind, lift, ret,
    emit.
  fold (payload_of (rd st)). rewrite Hm. cbn [rd world trace].
  rewrite Hparse, Hpost.
  destruct a as [[req|] [err|]]; try reflexivity.
  unfold ioutil_ReadAll.
  destruct (read_error (Body req)); [reflexivity|].
  destruct (json_Unmarshal_DeploymentVariable _ _) as [rv [jerr|]];
    [reflexivity|].
  cbn [rd world trace]. rewrite <- app_assoc. reflexivity.
Qed.

Lemma Update_after_marshal (m : Client World) (st : State World)
    (bytedata r e : string) (a : answer) (w' : World) :
  json_Marshal (payload_of (rd st)) = (bytedata, None) ->
  parseDeploymentId (f_deployment (rd st)) = Value (r, e) ->
  Put m (variablePath r e (f_uuid (rd st))) bytedata (world st) = (a, w') ->
  let put := {| rd := rd st; world := w';
                trace := trace st
                         ++ [EvPut (variablePath r e (f_uuid (rd st)))
                               bytedata] |} in
  Update m st =
  match a with
  | (_, Some err) => (Value (Some err), put)
  | (None, None) => (Panic NilDereference, put)
  | (Some req, None) =>
      if StatusCode req =? 200 then Read m put else (Value None, put)
  end.
Proof.
  intros Hm Hparse Hput put. subst put.
  unfold resourceDeploymentVariableUpdate, newDeploymentVariableFromResource,
    client_Put, d_Get_deployment, d_Get_uuid, d_Get_key, d_Get_value,
    d_Get_secured, deref, bind, lift, ret, emit.
  fold (payload_of (rd st)). rewrite Hm. cbn [rd world trace].
  rewrite Hparse, Hput.
  destruct a as [[req|] [err|]]; try reflexivity.
  destruct (StatusCode req =? 200); reflexivity.
Qed.

Lemma Delete_after_parse (m : Client World) (st : State World)
    (r e : string) (a : answer) (w' : World) :
  parseDeploymentId (f_deployment (rd st)) = Value (r, e) ->
  Delete m (fmt_Sprintf0 (variablePath r e (f_uuid (rd st)))) (world st)
  = (a, w') ->
  Delete_ m st =
  (Value (snd a),
   {| rd := rd st; world := w';
      trace := trace st
               ++ [EvDelete
                     (fmt_Sprintf0 (variablePath r e (f_uuid (rd st))))] |}).
Proof.
  intros Hparse Hdel.
  unfold resourceDeploymentVariableDelete, client_Delete, d_Get_deployment,
    d_Get_uuid, bind, lift, ret, emit.
  rewrite Hparse. cbn [rd world trace]. rewrite Hdel.
  destruct a as [resp err]. reflexivity.
Qed.

(** C5: when the payload is encoded, the POST returns a response and no
    error and the body of the response decodes to a variable [rv],
    Create stores [UUID rv] in the uuid field and as the identity, sleeps
    and then runs Read once on that record: its outcome is the outcome of
    that Read, and the requests it has issued when it returns are the
    POST and the one list request of the Read. *)
Theorem Create_stores_uuid_then_reads_once
    (m : Client World) (st : State World) (bytedata r e : string)
    (resp : Response) (w' : World) (body : string)
    (rv : DeploymentVariable) :
  json_Marshal (payload_of (rd st)) = (bytedata, None) ->
  parseDeploymentId (f_deployment (rd st)) = Value (r, e) ->
  Post m (variablesPath r e) bytedata (world st) = ((Some resp, None), w') ->
  ioutil_ReadAll (Body resp) = (body, None) ->
  json_Unmarshal_DeploymentVariable body zero_DeploymentVariable
  = (rv, None) ->
  let stored :=
    {| rd := with_Id (UUID rv) (with_uuid (UUID rv) (rd st));
       world := w';
       trace := trace st
                ++ [EvPost (variablesPath r e) bytedata;
                    EvSleep (5000 * Millisecond)] |} in
  f_uuid (rd stored) = UUID rv /\ Id (rd stored) = UUID rv
  /\ Create m st = Read m stored
  /\ trace (snd (Create m st))
     = (trace st
        ++ [EvPost (variablesPath r e) bytedata;
            EvSleep (5000 * Millisecond);
            EvGet (variablesPath r e)])%list.
Proof.
  intros Hm Hparse Hpost Hbody Hjson stored.
  assert (Create m st = Read m stored) as HC.
  { rewrite (Create_after_marshal m st bytedata r e _ w' Hm Hparse Hpost).
    rewrite Hbody, Hjson. reflexivity. }
  repeat split; [exact HC|].
  rewrite HC, (Read_trace m stored r e) by exact Hparse.
  subst stored. cbn [trace]. rewrite <- app_assoc. reflexivity.
Qed.

(** C7: when the PUT of Update returns a response and no error and the
    status of the response is not 200, Update returns nil, the local
    record is what it was, and the PUT is the only request issued: Read
    is not run. *)
Theorem Update_non_200_returns_nil_unchanged
    (m : Client World) (st : State World) (bytedata r e : string)
    (resp : Response) (w' : World) :
  json_Marshal (payload_of (rd st)) = (bytedata, None) ->
  parseDeploymentId (f_deployment (rd st)) = Value (r, e) ->
  Put m (variablePath r e (f_uuid (rd st))) bytedata (world st)
  = ((Some resp, None), w') ->
  StatusCode resp <> 200 ->
  Update m st =
  (Value None,
   {| rd := rd st; world := w';
      trace := trace st
               ++ [EvPut (variablePath r e (f_uuid (rd st))) bytedata] |}).
Proof.
  intros Hm Hparse Hput Hs.
  rewrite (Update_after_marshal m st bytedata r e _ w' Hm Hparse Hput).
  destruct (Z.eqb_spec (StatusCode resp) 200); [contradiction | reflexivity].
Qed.

(** Read adds to the trace and takes nothing from it. *)
Lemma Read_extends_trace (m : Client World) (st : State World) :
  exists tl, trace (snd (Read m st)) = (trace st ++ tl)%list.
Proof.
  destruct (parseDeploymentId (f_deployment (rd st)))
    as [[r e]|p] eqn:Hparse.
  - eexists. apply (Read_trace m st r e Hparse).
  - exists []. step. rewrite Hparse. cbn. now rewrite app_nil_r.
Qed.

Lemma Create_first_event (m : Client World) (st : State World)
    (bytedata r e : string) :
  json_Marshal (payload_of (rd st)) = (bytedata, None) ->
  parseDeploymentId (f_deployment (rd st)) = Value (r, e) ->
  first_event st (Create m st)
  = Some (EvPost (variablesPath r e) bytedata).
Proof.
  intros Hm Hparse. unfold first_event.
  destruct (Post m (variablesPath r e) bytedata (world st))
    as [a w'] eqn:Hpost.
  rewrite (Create_after_marshal m st bytedata r e a w' Hm Hparse Hpost).
  destruct a as [[req|] [err|]];
    try (cbn [snd trace]; apply nth_error_first_new).
  destruct (ioutil_ReadAll (Body req)) as [body [rerr|]];
    [cbn [snd trace]; apply nth_error_first_new|].
  destruct (json_Unmarshal_DeploymentVariable _ _) as [rv [jerr|]];
    [cbn [snd trace]; apply nth_error_first_new|].
  match goal with
  | |- context [Read m ?s] =>
      destruct (Read_extends_trace m s) as (tl & ->)
  end.
  cbn [trace]. rewrite <- app_assoc. apply nth_error_first_new.
Qed.

Lemma Update_first_event (m : Client World) (st : State World)
    (bytedata r e : string) :
  json_Marshal (payload_of (rd st)) = (bytedata, None) ->
  parseDeploymentId (f_deployment (rd st)) = Value (r, e) ->
  first_event st (Update m st)
  = Some (EvPut (variablePath r e (f_uuid (rd st))) bytedata).
Proof.
  intros Hm Hparse. unfold first_event.
  destruct (Put m (variablePath r e (f_uuid (rd st))) bytedata (world st))
    as [a w'] eqn:Hput.
  rewrite (Update_after_marshal m st bytedata r e a w' Hm Hparse Hput).
  destruct a as [[req|] [err|]];
    try (cbn [snd trace]; apply nth_error_first_new).
  destruct (StatusCode req =? 200);
    [|cbn [snd trace]; apply nth_error_first_new].
  match goal with
  | |- context [Read m ?s] =>
      destruct (Read_extends_trace m s) as (tl & ->)
  end.
  cbn [trace]. rewrite <- app_assoc. apply nth_error_first_new.
Qed.

(** C2, amended: in Create, Update and Delete an error returned by
    [client.Post], [client.Put] and [client.Delete] is returned to the
    caller at once, with the local record untouched and no further
    request; Read assigns the error of [client.Get] to the blank
    identifier: its run is the same whatever that error is, and on a
    response whose status is not 200 it returns nil. *)
Theorem transport_errors_returned_except_by_Read
    (m : Client World) (st : State World) (r e : string) :
  parseDeploymentId (f_deployment (rd st)) = Value (r, e) ->
  (forall bytedata resp err w',
      json_Marshal (payload_of (rd st)) = (bytedata, None) ->
      Post m (variablesPath r e) bytedata (world st)
      = ((resp, Some err), w') ->
      Create m st =
      (Value (Some err),
       {| rd := rd st; world := w';
          trace := trace st ++ [EvPost (variablesPath r e) bytedata] |}))
  /\ (forall bytedata resp err w',
      json_Marshal (payload_of (rd st)) = (bytedata, None) ->
      Put m (variablePath r e (f_uuid (rd st))) bytedata (world st)
      = ((resp, Some err), w') ->
      Update m st =
      (Value (Some err),
       {| rd := rd st; world := w';
          trace := trace st
                   ++ [EvPut (variablePath r e (f_uuid (rd st)))
                         bytedata] |}))
  /\ (forall resp err w',
      Delete m (fmt_Sprintf0 (variablePath r e (f_uuid (rd st)))) (world st)
      = ((resp, Some err), w') ->
      Delete_ m st =
      (Value (Some err),
       {| rd := rd st; world := w';
          trace := trace st
                   ++ [EvDelete
                         (fmt_Sprintf0
                            (variablePath r e (f_uuid (rd st))))] |}))
  /\ (forall (m' : Client World) a err err' w',
      Get m (variablesPath r e) (world st) = ((a, err), w') ->
      Get m' (variablesPath r e) (world st) = ((a, err'), w') ->
      Read m' st = Read m st)
  /\ (forall resp err w',
      Get m (variablesPath r e) (world st) = ((Some resp, err), w') ->
      StatusCode resp <> 200 ->
      fst (Read m st) = Value None).
Proof.
  intros Hparse. repeat split.
  - intros bytedata resp err w' Hm Hpost.
    rewrite (Create_after_marshal m st bytedata r e _ w' Hm Hparse Hpost).
    now destruct resp.
  - intros bytedata resp err w' Hm Hput.
    rewrite (Update_after_marshal m st bytedata r e _ w' Hm Hparse Hput).
    now destruct resp.
  - intros resp err w' Hdel.
    rewrite (Delete_after_parse m st r e _ w' Hparse Hdel). reflexivity.
  - intros m' a err err' w' Hg Hg'.
    step. rewrite Hparse, Hg, Hg'. reflexivity.
  - intros resp err w' Hg Hs.
    destruct (Z.eq_dec (StatusCode resp) 404) as [H404|H404].
    + now rewrite (Read_status_404 m st r e resp err w' Hparse Hg H404).
    + now rewrite (Read_status_other m st r e resp err w' Hparse Hg Hs H404).
Qed.

(** C10: [parseDeploymentId] accepts empty components.  For every
    identifier [r ++ ":" ++ e] with colon-free [r], either of [r] and
    [e] possibly empty, it returns [(r, e)], and Read, Delete and, once
    the payload is encoded, Create and Update go on to issue their
    request on the path built from [r] and [e]; [":d"] gives
    [("", "d")] and ["r:"] gives [("r", "")]. *)
Theorem empty_components_are_accepted
    (m : Client World) (st : State World) (r e : string) :
  ~ has_colon r -> f_deployment (rd st) = r ++ ":" ++ e ->
  parseDeploymentId (f_deployment (rd st)) = Value (r, e)
  /\ first_event st (Read m st) = Some (EvGet (variablesPath r e))
  /\ first_event st (Delete_ m st)
     = Some (EvDelete (fmt_Sprintf0 (variablePath r e (f_uuid (rd st)))))
  /\ (forall bytedata,
        json_Marshal (payload_of (rd st)) = (bytedata, None) ->
        first_event st (Create m st)
        = Some (EvPost (variablesPath r e) bytedata)
        /\ first_event st (Update m st)
           = Some (EvPut (variablePath r e (f_uuid (rd st))) bytedata))
  /\ parseDeploymentId ":d" = Value ("", "d")
  /\ parseDeploymentId "r:" = Value ("r", "").
Proof.
  intros Hr Hdep.
  assert (parseDeploymentId (f_deployment (rd st)) = Value (r, e))
    as Hparse by (rewrite Hdep; now apply parseDeploymentId_split).
  split; [exact Hparse|]. split; [|split; [|split; [|split; reflexivity]]].
  - unfold first_event. rewrite (Read_trace m st r e Hparse).
    apply (nth_error_first_new (trace st) []).
  - unfold first_event.
    destruct (Delete m (fmt_Sprintf0 (variablePath r e (f_uuid (rd st))))
                (world st)) as [a w'] eqn:Hdel.
    rewrite (Delete_after_parse m st r e a w' Hparse Hdel).
    cbn [snd trace]. apply (nth_error_first_new (trace st) []).
  - intros bytedata Hm. split.
    + now apply Create_first_event.
    + now apply Update_first_event.
Qed.

End Properties.

(* ================================================================== *)
(** ** The theorems at work on the test service *)

Lemma Read_clears_identity_when_absent_witness :
  parseDeploymentId (f_deployment local_u1) = Value ("repo", "env") /\
  exists st',
    run_Read service_empty (start local_u1) = (Value None, st')
    /\ Id (rd st') = "".
Proof.
  split; [reflexivity|].
  apply (Read_clears_identity_when_absent unit (table_Unmarshal page_bodies)
           service_empty (start local_u1) "repo" "env"
           (respond 200 "page-empty") None tt).
  - reflexivity.
  - reflexivity.
  - left. split; [reflexivity|].
    exists {| Values := []; Page := 1; Size := 0; Next := "" |}.
    split.
    + exists "page-empty". split; reflexivity.
    + left. reflexivity.
Defined.

Lemma Read_clearing_identity_keeps_fields_witness :
  let d' := rd (snd (run_Read service_without_u1 (start local_u1))) in
  Id d' = "" /\ f_uuid d' = "u1" /\ f_key d' = "k" /\ f_value d' = "v"
  /\ f_secured d' = false /\ f_deployment d' = "repo:env".
Proof.
  apply (Read_clearing_identity_keeps_fields unit
           (table_Unmarshal page_bodies)
           service_without_u1 (start local_u1) "repo" "env"
           (respond 200 "page-u2") None tt).
  - reflexivity.
  - reflexivity.
  - left. split; [reflexivity|].
    exists {| Values := [var_u2]; Page := 1; Size := 1; Next := "" |}.
    split.
    + exists "page-u2". split; reflexivity.
    + right. intros rv [<-|[]]. discriminate.
Defined.

Lemma Read_copies_first_matching_entry_witness :
  exists pre rv post st',
    [var_u2; var_u1_remote] = (pre ++ rv :: post)%list /\
    (forall x, In x pre -> UUID x <> "u1") /\
    UUID rv = "u1" /\
    run_Read service (start local_u1) = (Value None, st') /\
    Id (rd st') = UUID rv /\ f_uuid (rd st') = UUID rv /\
    f_key (rd st') = Key rv /\ f_value (rd st') = Value_ rv /\
    f_secured (rd st') = Secured rv /\
    f_deployment (rd st') = "repo:env".
Proof.
  apply (Read_copies_first_matching_entry unit (table_Unmarshal page_bodies)
           service (start local_u1) "repo" "env"
           (respond 200 "page-u2-u1") None tt
           {| Values := [var_u2; var_u1_remote]; Page := 1; Size := 2;
              Next := "" |}).
  - reflexivity.
  - reflexivity.
  - reflexivity.
  - exists "page-u2-u1". split; reflexivity.
  - cbn. lia.
  - exists var_u1_remote. split; [right; left|]; reflexivity.
Defined.

(** C6 as first stated fails: on a page that has the entry and a size
    below 1, Read clears the identity and copies nothing. *)
Lemma Read_skips_entry_when_size_below_1 :
  Get service_without_size (variablesPath "repo" "env") tt
  = (answers 200 "page-u1-without-size", tt)
  /\ decodes_to (table_Unmarshal page_bodies)
       (respond 200 "page-u1-without-size")
       {| Values := [var_u1_remote]; Page := 0; Size := 0; Next := "" |}
  /\ In var_u1_remote [var_u1_remote]
  /\ UUID var_u1_remote = f_uuid local_u1
  /\ run_Read service_without_size (start local_u1)
     = (Value None,
        {| rd := with_Id "" local_u1; world := tt;
           trace := [EvGet (variablesPath "repo" "env")] |})
  /\ Id (with_Id "" local_u1) <> UUID var_u1_remote
  /\ f_key (with_Id "" local_u1) <> Key var_u1_remote
  /\ f_value (with_Id "" local_u1) <> Value_ var_u1_remote
  /\ f_secured (with_Id "" local_u1) <> Secured var_u1_remote.
Proof.
  split; [reflexivity|].
  split; [exists "page-u1-without-size"; split; reflexivity|].
  split; [now left|].
  repeat split; try reflexivity; cbn; discriminate.
Qed.

Lemma Read_idempotent_witness :
  fst (run_Read service (snd (run_Read service (start local_u1))))
  = fst (run_Read service (start local_u1))
  /\ rd (snd (run_Read service (snd (run_Read service (start local_u1)))))
     = rd (snd (run_Read service (start local_u1))).
Proof.
  apply (Read_idempotent unit (table_Unmarshal page_bodies)
           service (start local_u1)).
  intros path. reflexivity.
Defined.

Lemma Create_stores_uuid_then_reads_once_witness :
  let stored :=
    {| rd := with_Id "u1" (with_uuid "u1" local_new); world := tt;
       trace := [EvPost (variablesPath "repo" "env")
                   "{key:k,value:v,secured:false}";
                 EvSleep 5000000000] |} in
  f_uuid (rd stored) = "u1" /\ Id (rd stored) = "u1"
  /\ run_Create service (start local_new) = run_Read service stored
  /\ trace (snd (run_Create service (start local_new)))
     = [EvPost (variablesPath "repo" "env") "{key:k,value:v,secured:false}";
        EvSleep 5000000000;
        EvGet (variablesPath "repo" "env")].
Proof.
  apply (Create_stores_uuid_then_reads_once unit plain_Marshal
           (table_Unmarshal variable_bodies) (table_Unmarshal page_bodies)
           service (start local_new) "{key:k,value:v,secured:false}"
           "repo" "env" (respond 200 "created-u1") tt "created-u1" var_u1).
  - reflexivity.
  - reflexivity.
  - reflexivity.
  - reflexivity.
  - reflexivity.
Defined.

Lemma Update_non_200_returns_nil_unchanged_witness :
  StatusCode (respond 409 "conflict") <> 200 /\
  run_Update service (start local_u1)
  = (Value None,
     {| rd := local_u1; world := tt;
        trace := [EvPut (variablePath "repo" "env" "u1")
                    "{key:k,value:v,secured:false}"] |}).
Proof.
  split; [discriminate|].
  apply (Update_non_200_returns_nil_unchanged unit plain_Marshal
           (table_Unmarshal page_bodies)
           service (start local_u1) "{key:k,value:v,secured:false}"
           "repo" "env" (respond 409 "conflict") tt).
  - reflexivity.
  - reflexivity.
  - reflexivity.
  - discriminate.
Defined.

(** C2 as first stated fails for Read: the list request comes back with an
    error and Read returns nil. *)
Lemma Read_drops_error_of_Get :
  Get service_down (variablesPath "repo" "env") tt
  = ((Some (respond 500 "internal error"), Some (Error "internal error")), tt)
  /\ run_Read service_down (start local_u1)
     = (Value None,
        {| rd := local_u1; world := tt;
           trace := [EvGet (variablesPath "repo" "env")] |})
  /\ fst (run_Read service_down (start local_u1))
     <> Value (Some (Error "internal error")).
Proof.
  repeat split; try reflexivity. cbn. discriminate.
Qed.

Lemma transport_errors_returned_except_by_Read_witness :
  parseDeploymentId (f_deployment local_u1) = Value ("repo", "env")
  /\ fst (run_Create service_down (start local_u1))
     = Value (Some (Error "internal error"))
  /\ fst (run_Update service_down (start local_u1))
     = Value (Some (Error "internal error"))
  /\ fst (run_Delete service_down (start local_u1))
     = Value (Some (Error "internal error"))
  /\ fst (run_Read service_down (start local_u1)) = Value None.
Proof.
  split; [reflexivity|].
  destruct (transport_errors_returned_except_by_Read unit plain_Marshal
              (table_Unmarshal variable_bodies) (table_Unmarshal page_bodies)
              plain_Sprintf0 service_down (start local_u1) "repo" "env"
              eq_refl)
    as (HC & HU & HD & _ & HR).
  split; [|split; [|split]].
  - unfold run_Create.
    rewrite (HC "{key:k,value:v,secured:false}"
               (Some (respond 500 "internal error"))
               (Error "internal error") tt eq_refl eq_refl).
    reflexivity.
  - unfold run_Update.
    rewrite (HU "{key:k,value:v,secured:false}"
               (Some (respond 500 "internal error"))
               (Error "internal error") tt eq_refl eq_refl).
    reflexivity.
  - unfold run_Delete.
    rewrite (HD (Some (respond 500 "internal error"))
               (Error "internal error") tt eq_refl).
    reflexivity.
  - apply (HR (respond 500 "internal error")
             (Some (Error "internal error")) tt eq_refl).
    discriminate.
Defined.

Lemma empty_components_are_accepted_witness :
  ~ has_colon "" /\
  parseDeploymentId ":d" = Value ("", "d")
  /\ first_event (start local_empty_repository)
       (run_Read service (start local_empty_repository))
     = Some (EvGet "2.0/repositories//deployments_config/environments/d/variables")
  /\ first_event (start local_empty_repository)
       (run_Delete service (start local_empty_repository))
     = Some (EvDelete
               "2.0/repositories//deployments_config/environments/d/variables/u1")
  /\ first_event (start local_empty_repository)
       (run_Create service (start local_empty_repository))
     = Some (EvPost
               "2.0/repositories//deployments_config/environments/d/variables"
               "{key:k,value:v,secured:false}")
  /\ first_event (start local_empty_repository)
       (run_Update service (start local_empty_repository))
     = Some (EvPut
               "2.0/repositories//deployments_config/environments/d/variables/u1"
               "{key:k,value:v,secured:false}").
Proof.
  assert (~ has_colon "") as Hno by (intros []).
  split; [exact Hno|].
  destruct (empty_components_are_accepted unit plain_Marshal
              (table_Unmarshal variable_bodies) (table_Unmarshal page_bodies)
              plain_Sprintf0 service (start local_empty_repository) "" "d"
              Hno eq_refl)
    as (Hp & HR & HD & HCU & _).
  destruct (HCU "{key:k,value:v,secured:false}" eq_refl) as (HC & HU).
  split; [exact Hp|]. split; [exact HR|]. split; [exact HD|].
  split; [exact HC | exact HU].
Defined.


(* ================================================================== *)
(** ** More on splitting *)

Lemma has_colon_dec (s : string) : {has_colon s} + {~ has_colon s}.
Proof.
  unfold has_colon. apply in_dec. apply Ascii.ascii_dec.
Qed.

Lemma prefix_app (p s : string) :
  prefix p s = true -> exists t, s = p ++ t.
Proof.
  revert s. induction p as [|c p IH]; intros s H.
  - exists s. reflexivity.
  - destruct s as [|c' s]; cbn [prefix] in H; [discriminate|].
    destruct (Ascii.ascii_dec c c') as [<-|_]; [|discriminate].
    destruct (IH s H) as (t & ->). exists t. reflexivity.
Qed.

Lemma slice_from_app (p t : string) :
  strings.slice_from (p ++ t) (0 + strings.len p) = t.
Proof.
  unfold strings.slice_from, strings.slice, strings.len.
  rewrite length_app.
  replace (Z.to_nat (0 + Z.of_nat (String.length p)))
    with (String.length p + 0)%nat by lia.
  replace (Z.to_nat (Z.of_nat (String.length p + String.length t)
                     - (0 + Z.of_nat (String.length p))))
    with (String.length t) by lia.
  rewrite substring_skip_app. apply substring_whole.
Qed.

(** Where [Index] finds the separator, the string is the text before it,
    the separator, and the text after it. *)
Lemma Index_split (s sep : string) :
  0 <= strings.Index s sep ->
  s = strings.slice s 0 (strings.Index s sep) ++ sep
      ++ strings.slice_from s (strings.Index s sep + strings.len sep).
Proof.
  induction s as [|c s IH]; cbn [strings.Index].
  - destruct (prefix sep "") eqn:P; [|lia]. intros _.
    destruct (prefix_app _ _ P) as (t & E).
    destruct sep; [|discriminate]. reflexivity.
  - destruct (prefix sep (String c s)) eqn:P.
    + intros _. destruct (prefix_app _ _ P) as (t & E).
      rewrite E at 3. rewrite slice_from_app.
      unfold strings.slice. cbn [Z.sub Z.to_nat Z.opp].
      rewrite E at 1. now destruct (sep ++ t).
    + destruct (Z.ltb_spec (strings.Index s sep) 0) as [|Hm]; [lia|].
      intros _. specialize (IH Hm).
      unfold strings.slice_from, strings.slice, strings.len in *.
      cbn [String.length].
      replace (Z.to_nat (strings.Index s sep + 1 - 0))
        with (S (Z.to_nat (strings.Index s sep - 0))) by lia.
      replace (Z.to_nat (strings.Index s sep + 1
                         + Z.of_nat (String.length sep)))
        with (S (Z.to_nat (strings.Index s sep
                           + Z.of_nat (String.length sep)))) by lia.
      replace (Z.to_nat (Z.of_nat (S (String.length s))
                         - (strings.Index s sep + 1
                            + Z.of_nat (String.length sep))))
        with (Z.to_nat (Z.of_nat (String.length s)
                        - (strings.Index s sep
                           + Z.of_nat (String.length sep)))) by lia.
      change (Z.to_nat 0) with 0%nat in *.
      cbn [substring append]. rewrite <- IH. reflexivity.
Qed.

Lemma genSplit_loop_length (s sep : string) (k : nat) :
  (1 <= List.length (strings.genSplit_loop s sep k) <= S k)%nat.
Proof.
  revert s. induction k as [|k IH]; intros s; cbn [strings.genSplit_loop].
  - cbn. lia.
  - destruct (strings.Index s sep <? 0); cbn [List.length]; [lia|].
    specialize (IH (strings.slice_from s
                      (strings.Index s sep + strings.len sep))). lia.
Qed.

Lemma genSplit_loop_join (s sep : string) (k : nat) :
  concat sep (strings.genSplit_loop s sep k) = s.
Proof.
  revert s. induction k as [|k IH]; intros s; cbn [strings.genSplit_loop].
  - reflexivity.
  - destruct (Z.ltb_spec (strings.Index s sep) 0) as [|Hm]; [reflexivity|].
    pose proof (genSplit_loop_length
                  (strings.slice_from s
                     (strings.Index s sep + strings.len sep)) sep k) as L.
    specialize (IH (strings.slice_from s
                      (strings.Index s sep + strings.len sep))).
    destruct (strings.genSplit_loop _ sep k) as [|x xs] eqn:E;
      [cbn in L; lia|].
    cbn [concat] in *. rewrite IH. symmetry. now apply Index_split.
Qed.

(** X1: [parseDeploymentId] returns [(r, e)] exactly on the strings
    [r ++ ":" ++ e] with colon-free [r]: joining the two results with a
    colon gives the input back, and the first result has no colon. *)
Theorem parseDeploymentId_returns_iff (str r e : string) :
  parseDeploymentId str = Value (r, e)
  <-> str = r ++ ":" ++ e /\ ~ has_colon r.
Proof.
  split.
  - intros H. destruct (has_colon_dec str) as [Hc|Hc].
    + destruct (first_colon_split str Hc) as (a & b & -> & Ha).
      rewrite (parseDeploymentId_split a b Ha) in H.
      injection H as -> ->. auto.
    + rewrite (parseDeploymentId_no_colon str Hc) in H. discriminate.
  - intros (-> & Hr). now apply parseDeploymentId_split.
Qed.

(** X2: for a non-empty separator and [n <> 0], the parts that
    [strings.SplitN] returns joined by the separator are the input; there
    is at least one part, and at most [n] when [n] is positive. *)
Theorem SplitN_join_and_length (s sep : string) (n : Z) :
  sep <> "" -> n <> 0 ->
  concat sep (strings.SplitN s sep n) = s
  /\ (1 <= List.length (strings.SplitN s sep n))%nat
  /\ (0 < n -> Z.of_nat (List.length (strings.SplitN s sep n)) <= n).
Proof.
  intros _ Hn. unfold strings.SplitN.
  destruct (Z.eqb_spec n 0) as [|_]; [contradiction|].
  destruct (Z.ltb_spec n 0) as [Hneg|Hpos].
  - split; [apply genSplit_loop_join|].
    split; [apply genSplit_loop_length | lia].
  - split; [apply genSplit_loop_join|].
    split; [apply genSplit_loop_length|]. intros _.
    match goal with
    | |- context [strings.genSplit_loop s sep ?k] =>
        pose proof (genSplit_loop_length s sep k) as L
    end.
    destruct (n >? strings.len s + 1) eqn:G.
    + apply Z.gtb_lt in G. unfold strings.len in *. lia.
    + lia.
Qed.

Lemma SplitN_join_and_length_witness :
  concat "::" (strings.SplitN "a::b::c" "::" 2) = "a::b::c"
  /\ (1 <= List.length (strings.SplitN "a::b::c" "::" 2))%nat
  /\ (0 < 2 -> Z.of_nat (List.length (strings.SplitN "a::b::c" "::" 2)) <= 2).
Proof.
  apply (SplitN_join_and_length "a::b::c" "::" 2); discriminate.
Defined.

(* ================================================================== *)
(** ** More on the callbacks *)

Section Behaviour.

Variable World : Type.
Variable json_Marshal : DeploymentVariable -> string * option error.
Variable json_Unmarshal_DeploymentVariable :
  string -> DeploymentVariable -> DeploymentVariable * option error.
Variable json_Unmarshal_PaginatedDeploymentVariables :
  string -> PaginatedDeploymentVariables ->
  PaginatedDeploymentVariables * option error.
Variable fmt_Sprintf0 : string -> string.

Local Abbreviation Read :=
  (resourceDeploymentVariableRead World
     json_Unmarshal_PaginatedDeploymentVariables).
Local Abbreviation Create :=
  (resourceDeploymentVariableCreate World json_Marshal
     json_Unmarshal_DeploymentVariable
     json_Unmarshal_PaginatedDeploymentVariables).
Local Abbreviation Update :=
  (resourceDeploymentVariableUpdate World json_Marshal
     json_Unmarshal_PaginatedDeploymentVariables).
Local Abbreviation Delete_ := (resourceDeploymentVariableDelete World fmt_Sprintf0).
Local Abbreviation decodes :=
  (decodes_to json_Unmarshal_PaginatedDeploymentVariables).
Local Abbreviation is_absent :=
  (absent json_Unmarshal_PaginatedDeploymentVariables).
Local Abbreviation unmarshal_page body :=
  (json_Unmarshal_PaginatedDeploymentVariables
     body zero_PaginatedDeploymentVariables).
Local Abbreviation unmarshal_variable body :=
  (json_Unmarshal_DeploymentVariable body zero_DeploymentVariable).
Local Abbreviation has_uuid uuid :=
  (fun rv : DeploymentVariable => String.eqb (UUID rv) uuid).

Ltac run :=
  unfold resourceDeploymentVariableRead, resourceDeploymentVariableCreate,
    resourceDeploymentVariableUpdate, resourceDeploymentVariableDelete,
    newDeploymentVariableFromResource, Read_after_list,
    client_Get, client_Post, client_Put, client_Delete, time_Sleep,
    d_Get_deployment, d_Get_uuid, d_Get_key, d_Get_value, d_Get_secured,
    d_SetId, d_Set_uuid, d_Set_key, d_Set_value, d_Set_secured, modify_rd,
    deref, bind, lift, ret, emit, listed;
  cbn [rd world trace fst snd].

(** The scan of the page is a [find]. *)
Lemma range_Values_find (uuid : string) (values : list DeploymentVariable)
    (st : State World) :
  range_Values World uuid values st =
  match find (has_uuid uuid) values with
  | Some rv =>
      (Value true,
       {| rd := copied rv (rd st); world := world st; trace := trace st |})
  | None => (Value false, st)
  end.
Proof.
  induction values as [|x rest IH]; [reflexivity|].
  cbn [range_Values find].
  destruct (String.eqb (UUID x) uuid); [reflexivity | exact IH].
Qed.

Lemma Read_without_parse (m : Client World) (st : State World) (p : panic) :
  parseDeploymentId (f_deployment (rd st)) = Panic p ->
  Read m st = (Panic p, st).
Proof.
  intros Hparse. run. rewrite Hparse. reflexivity.
Qed.

Section ReadOutcomes.

Variable m : Client World.
Variable st : State World.
Variables r e : string.
Variable err : option error.
Variable w' : World.

Hypothesis Hparse : parseDeploymentId (f_deployment (rd st)) = Value (r, e).

Local Abbreviation after d := (listed World st (variablesPath r e) w' d).

Lemma Read_nil_response :
  Get m (variablesPath r e) (world st) = ((None, err), w') ->
  Read m st = (Panic NilDereference, after (rd st)).
Proof.
  intros Hget. run. rewrite Hparse, Hget. reflexivity.
Qed.

Variable resp : Response.
Hypothesis Hget :
  Get m (variablesPath r e) (world st) = ((Some resp, err), w').
Hypothesis Hs : StatusCode resp = 200.

Lemma Read_body_error (rerr : error) :
  read_error (Body resp) = Some rerr ->
  Read m st = (Value (Some rerr), after (rd st)).
Proof.
  intros Hread. run. rewrite Hparse, Hget. cbn. rewrite Hs. cbn.
  rewrite Hread. reflexivity.
Qed.

Lemma Read_decode_error (jerr : error) :
  read_error (Body resp) = None ->
  snd (unmarshal_page (content (Body resp))) = Some jerr ->
  Read m st = (Value (Some jerr), after (rd st)).
Proof.
  intros Hread Hjson. run. rewrite Hparse, Hget. cbn. rewrite Hs. cbn.
  rewrite Hread.
  destruct (unmarshal_page (content (Body resp))) as [prv o].
  cbn [snd] in Hjson. subst o. reflexivity.
Qed.

Lemma Read_decoded (prv : PaginatedDeploymentVariables) :
  decodes resp prv ->
  Read m st =
  (Value None,
   after (if Size prv <? 1 then with_Id "" (rd st)
          else match find (has_uuid (f_uuid (rd st))) (Values prv) with
               | Some rv => copied rv (rd st)
               | None => with_Id "" (rd st)
               end)).
Proof.
  intros (body & [= Hbody Hread] & Hjson). run.
  rewrite Hparse, Hget. cbn. rewrite Hs. cbn. rewrite Hread, Hbody, Hjson.
  destruct (Size prv <? 1); [reflexivity|].
  cbn [rd]. rewrite range_Values_find.
  destruct (find _ (Values prv)); reflexivity.
Qed.

End ReadOutcomes.

(** Every run of Read, sorted by what it did to the local record. *)
Lemma Read_changes (m : Client World) (st : State World) :
  let d' := rd (snd (Read m st)) in
  d' = rd st \/ d' = with_Id "" (rd st)
  \/ exists rv, UUID rv = f_uuid (rd st) /\ d' = copied rv (rd st).
Proof.
  destruct (parseDeploymentId (f_deployment (rd st)))
    as [[r e]|p] eqn:Hparse.
  2:{ rewrite (Read_without_parse m st p Hparse). now left. }
  destruct (Get m (variablesPath r e) (world st)) as [[[resp|] err] w'] eqn:Hg.
  2:{ rewrite (Read_nil_response m st r e err w' Hparse Hg). now left. }
  destruct (Z.eq_dec (StatusCode resp) 200) as [Hs|Hs].
  2:{ destruct (Z.eq_dec (StatusCode resp) 404) as [H4|H4].
      - rewrite (Read_status_404 _ _ m st r e resp err w' Hparse Hg H4).
        right. now left.
      - rewrite (Read_status_other _ _ m st r e resp err w' Hparse Hg Hs H4).
        now left. }
  destruct (read_error (Body resp)) as [rerr|] eqn:Hread.
  { rewrite (Read_body_error m st r e err w' Hparse resp Hg Hs rerr Hread).
    now left. }
  destruct (unmarshal_page (content (Body resp))) as [prv [jerr|]] eqn:Hjson.
  { rewrite (Read_decode_error m st r e err w' Hparse resp Hg Hs jerr Hread)
      by now rewrite Hjson.
    now left. }
  rewrite (Read_decoded m st r e err w' Hparse resp Hg Hs prv).
  2:{ exists (content (Body resp)). unfold ioutil_ReadAll.
      rewrite Hread. auto. }
  cbn [snd rd listed].
  destruct (Size prv <? 1); [right; now left|].
  destruct (find _ (Values prv)) as [rv|] eqn:Hfind; [|right; now left].
  right. right. exists rv. split; [|reflexivity].
  apply find_some in Hfind. now apply String.eqb_eq.
Qed.

(** X3: on a response whose status is neither 200 nor 404, Read returns
    nil and leaves the whole local record, identity included, as it
    was. *)
Theorem Read_other_status_changes_nothing
    (m : Client World) (st : State World) (r e : string)
    (resp : Response) (err : option error) (w' : World) :
  parseDeploymentId (f_deployment (rd st)) = Value (r, e) ->
  Get m (variablesPath r e) (world st) = ((Some resp, err), w') ->
  StatusCode resp <> 200 -> StatusCode resp <> 404 ->
  Read m st = (Value None, listed World st (variablesPath r e) w' (rd st)).
Proof.
  intros Hparse Hg H2 H4.
  apply (Read_status_other _ _ m st r e resp err w' Hparse Hg H2 H4).
Qed.

(** X4: when [client.Get] returns a nil response (whatever the error
    beside it), Read panics with a nil dereference once the request has
    been made; the local record is as it was. *)
Theorem Read_nil_response_panics
    (m : Client World) (st : State World) (r e : string)
    (err : option error) (w' : World) :
  parseDeploymentId (f_deployment (rd st)) = Value (r, e) ->
  Get m (variablesPath r e) (world st) = ((None, err), w') ->
  Read m st
  = (Panic NilDereference, listed World st (variablesPath r e) w' (rd st)).
Proof.
  intros Hparse Hg. apply (Read_nil_response m st r e err w' Hparse Hg).
Qed.

(** X5: Read returns an error only for a response of status 200 whose
    body cannot be read or cannot be decoded, and the error is that of
    [ioutil.ReadAll] or of [json.Unmarshal]; the local record is then as
    it was. *)
Theorem Read_error_iff_body_fails
    (m : Client World) (st : State World) (r e : string)
    (resp : Response) (err : option error) (w' : World) (x : error) :
  parseDeploymentId (f_deployment (rd st)) = Value (r, e) ->
  Get m (variablesPath r e) (world st) = ((Some resp, err), w') ->
  (fst (Read m st) = Value (Some x)
   <-> StatusCode resp = 200
       /\ (read_error (Body resp) = Some x
           \/ read_error (Body resp) = None
              /\ snd (unmarshal_page (content (Body resp))) = Some x))
  /\ (fst (Read m st) = Value (Some x) -> rd (snd (Read m st)) = rd st).
Proof.
  intros Hparse Hg.
  destruct (Z.eq_dec (StatusCode resp) 200) as [Hs|Hs].
  2:{ assert (fst (Read m st) = Value None) as HN.
      { destruct (Z.eq_dec (StatusCode resp) 404) as [H4|H4].
        - now rewrite (Read_status_404 _ _ m st r e resp err w' Hparse Hg H4).
        - now rewrite (Read_status_other _ _ m st r e resp err w'
                         Hparse Hg Hs H4). }
      rewrite HN. split; [split|]; try discriminate.
      intros (H & _). contradiction. }
  destruct (read_error (Body resp)) as [rerr|] eqn:Hread.
  { rewrite (Read_body_error m st r e err w' Hparse resp Hg Hs rerr Hread).
    cbn [fst snd]. split; [split|reflexivity].
    - intros [= ->]. auto.
    - intros (_ & [[= ->]|(H & _)]); [reflexivity | discriminate]. }
  destruct (unmarshal_page (content (Body resp))) as [prv [jerr|]] eqn:Hjson.
  { rewrite (Read_decode_error m st r e err w' Hparse resp Hg Hs jerr Hread)
      by now rewrite Hjson.
    cbn [fst snd]. split; [split|reflexivity].
    - intros [= ->]. auto.
    - intros (_ & [H|(_ & [= ->])]); [discriminate | reflexivity]. }
  rewrite (Read_decoded m st r e err w' Hparse resp Hg Hs prv).
  2:{ exists (content (Body resp)). unfold ioutil_ReadAll.
      rewrite Hread. auto. }
  cbn [fst snd]. split; [split|]; try discriminate.
  intros (_ & [H|(_ & H)]); discriminate.
Qed.

(** X6: whatever happens, Read leaves the uuid and deployment fields of
    the local record alone, and what it adds to the requests issued is
    nothing (the identifier has no colon) or the one list request on the
    path of the parsed identifier. *)
Theorem Read_keeps_uuid_and_deployment
    (m : Client World) (st : State World) :
  f_uuid (rd (snd (Read m st))) = f_uuid (rd st)
  /\ f_deployment (rd (snd (Read m st))) = f_deployment (rd st)
  /\ (trace (snd (Read m st)) = trace st
      \/ exists r e,
           parseDeploymentId (f_deployment (rd st)) = Value (r, e)
           /\ trace (snd (Read m st))
              = (trace st ++ [EvGet (variablesPath r e)])%list).
Proof.
  split; [|split].
  - destruct (Read_changes m st) as [->|[->|(rv & _ & ->)]]; reflexivity.
  - destruct (Read_changes m st) as [->|[->|(rv & _ & ->)]]; reflexivity.
  - destruct (parseDeploymentId (f_deployment (rd st)))
      as [[r e]|p] eqn:Hparse.
    + right. exists r, e. split; [reflexivity|].
      apply (Read_trace _ _ m st r e Hparse).
    + left. now rewrite (Read_without_parse m st p Hparse).
Qed.

(** X7: Read keeps the identity in step with the uuid field: if the
    identity is empty or equal to the uuid field before Read, it is so
    after it. *)
Theorem Read_keeps_identity_empty_or_uuid
    (m : Client World) (st : State World) :
  Id (rd st) = "" \/ Id (rd st) = f_uuid (rd st) ->
  Id (rd (snd (Read m st))) = ""
  \/ Id (rd (snd (Read m st))) = f_uuid (rd (snd (Read m st))).
Proof.
  intros H.
  destruct (Read_changes m st) as [->|[->|(rv & Hrv & ->)]].
  - exact H.
  - now left.
  - right. exact Hrv.
Qed.

(** X8: Read follows no pagination: of a decoded page it uses the size
    and the entries only.  Two list responses of status 200 whose pages
    have the same size and entries, whatever their [page] and [next], give
    the same result and the same local record. *)
Theorem Read_ignores_page_and_next
    (m1 m2 : Client World) (st1 st2 : State World) (r e : string)
    (resp1 resp2 : Response) (err1 err2 : option error) (w1 w2 : World)
    (prv1 prv2 : PaginatedDeploymentVariables) :
  rd st1 = rd st2 ->
  parseDeploymentId (f_deployment (rd st1)) = Value (r, e) ->
  Get m1 (variablesPath r e) (world st1) = ((Some resp1, err1), w1) ->
  Get m2 (variablesPath r e) (world st2) = ((Some resp2, err2), w2) ->
  StatusCode resp1 = 200 -> StatusCode resp2 = 200 ->
  decodes resp1 prv1 -> decodes resp2 prv2 ->
  Size prv1 = Size prv2 -> Values prv1 = Values prv2 ->
  fst (Read m1 st1) = fst (Read m2 st2)
  /\ rd (snd (Read m1 st1)) = rd (snd (Read m2 st2)).
Proof.
  intros Hrd Hparse1 Hg1 Hg2 Hs1 Hs2 Hd1 Hd2 Hsize Hvalues.
  assert (parseDeploymentId (f_deployment (rd st2)) = Value (r, e))
    as Hparse2 by now rewrite <- Hrd.
  rewrite (Read_decoded m1 st1 r e err1 w1 Hparse1 resp1 Hg1 Hs1 prv1 Hd1).
  rewrite (Read_decoded m2 st2 r e err2 w2 Hparse2 resp2 Hg2 Hs2 prv2 Hd2).
  cbn [fst snd rd listed]. rewrite Hsize, Hvalues, Hrd. auto.
Qed.

(** *** Create, Update and Delete, case by case *)

Lemma Read_fields (m : Client World) (st : State World) :
  f_uuid (rd (snd (Read m st))) = f_uuid (rd st)
  /\ f_deployment (rd (snd (Read m st))) = f_deployment (rd st).
Proof.
  destruct (Read_changes m st) as [->|[->|(rv & _ & ->)]]; auto.
Qed.

Lemma Create_marshal_error (m : Client World) (st : State World)
    (bytedata : string) (x : error) :
  json_Marshal (payload_of (rd st)) = (bytedata, Some x) ->
  Create m st = (Value (Some x), st).
Proof.
  intros Hm. run. fold (payload_of (rd st)). rewrite Hm. reflexivity.
Qed.

Lemma Update_marshal_error (m : Client World) (st : State World)
    (bytedata : string) (x : error) :
  json_Marshal (payload_of (rd st)) = (bytedata, Some x) ->
  Update m st = (Value (Some x), st).
Proof.
  intros Hm. run. fold (payload_of (rd st)). rewrite Hm. reflexivity.
Qed.

Lemma Create_without_parse (m : Client World) (st : State World)
    (bytedata : string) (p : panic) :
  json_Marshal (payload_of (rd st)) = (bytedata, None) ->
  parseDeploymentId (f_deployment (rd st)) = Panic p ->
  Create m st = (Panic p, st).
Proof.
  intros Hm Hparse. run. fold (payload_of (rd st)).
  rewrite Hm. cbn [rd]. rewrite Hparse. reflexivity.
Qed.

Lemma Update_without_parse (m : Client World) (st : State World)
    (bytedata : string) (p : panic) :
  json_Marshal (payload_of (rd st)) = (bytedata, None) ->
  parseDeploymentId (f_deployment (rd st)) = Panic p ->
  Update m st = (Panic p, st).
Proof.
  intros Hm Hparse. run. fold (payload_of (rd st)).
  rewrite Hm. cbn [rd]. rewrite Hparse. reflexivity.
Qed.

Lemma Delete_without_parse (m : Client World) (st : State World)
    (p : panic) :
  parseDeploymentId (f_deployment (rd st)) = Panic p ->
  Delete_ m st = (Panic p, st).
Proof.
  intros Hparse. run. rewrite Hparse. reflexivity.
Qed.

(** What a run of Create adds to the trace, and the field it keeps. *)
Lemma Create_summary (m : Client World) (st : State World) :
  f_deployment (rd (snd (Create m st))) = f_deployment (rd st)
  /\ exists tl,
       trace (snd (Create m st)) = (trace st ++ tl)%list
       /\ (tl = []
           \/ exists r e b,
                tl = [EvPost (variablesPath r e) b]
                \/ tl = [EvPost (variablesPath r e) b;
                         EvSleep (5000 * Millisecond);
                         EvGet (variablesPath r e)]).
Proof.
  destruct (json_Marshal (payload_of (rd st))) as [b [x|]] eqn:Hm.
  { rewrite (Create_marshal_error m st b x Hm). split; [reflexivity|].
    exists []. cbn [snd]. rewrite app_nil_r. auto. }
  destruct (parseDeploymentId (f_deployment (rd st)))
    as [[r e]|p] eqn:Hparse.
  2:{ rewrite (Create_without_parse m st b p Hm Hparse).
      split; [reflexivity|]. exists []. cbn [snd]. rewrite app_nil_r. auto. }
  destruct (Post m (variablesPath r e) b (world st)) as [a w'] eqn:Hpost.
  rewrite (Create_after_marshal _ _ _ _ m st b r e a w' Hm Hparse Hpost).
  assert (forall o : Outcome (option error),
            let posted := (o, {| rd := rd st; world := w';
                                 trace := trace st
                                          ++ [EvPost (variablesPath r e) b] |}) in
            f_deployment (rd (snd posted)) = f_deployment (rd st)
            /\ exists tl,
                 trace (snd posted) = (trace st ++ tl)%list
                 /\ (tl = []
                     \/ exists r e b,
                          tl = [EvPost (variablesPath r e) b]
                          \/ tl = [EvPost (variablesPath r e) b;
                                   EvSleep (5000 * Millisecond);
                                   EvGet (variablesPath r e)])) as Hposted.
  { intros o posted. split; [reflexivity|].
    exists [EvPost (variablesPath r e) b]. split; [reflexivity|].
    right. exists r, e, b. now left. }
  destruct a as [[req|] [x|]]; try apply Hposted.
  unfold ioutil_ReadAll.
  destruct (read_error (Body req)); [apply Hposted|].
  destruct (unmarshal_variable (content (Body req))) as [rv [x|]];
    [apply Hposted|].
  match goal with
  | |- context [Read m ?s] =>
      pose proof (Read_fields m s) as (_ & Hd);
      pose proof (Read_trace World
                    json_Unmarshal_PaginatedDeploymentVariables
                    m s r e Hparse) as Ht
  end.
  split; [exact Hd|].
  eexists. split.
  - rewrite Ht. cbn [trace]. rewrite <- app_assoc. reflexivity.
  - right. exists r, e, b. now right.
Qed.

(** What a run of Update adds to the trace, and the fields it keeps. *)
Lemma Update_summary (m : Client World) (st : State World) :
  f_uuid (rd (snd (Update m st))) = f_uuid (rd st)
  /\ f_deployment (rd (snd (Update m st))) = f_deployment (rd st)
  /\ exists tl,
       trace (snd (Update m st)) = (trace st ++ tl)%list
       /\ (tl = []
           \/ exists r e b,
                tl = [EvPut (variablePath r e (f_uuid (rd st))) b]
                \/ tl = [EvPut (variablePath r e (f_uuid (rd st))) b;
                         EvGet (variablesPath r e)]).
Proof.
  destruct (json_Marshal (payload_of (rd st))) as [b [x|]] eqn:Hm.
  { rewrite (Update_marshal_error m st b x Hm). repeat split.
    exists []. cbn [snd]. rewrite app_nil_r. auto. }
  destruct (parseDeploymentId (f_deployment (rd st)))
    as [[r e]|p] eqn:Hparse.
  2:{ rewrite (Update_without_parse m st b p Hm Hparse). repeat split.
      exists []. cbn [snd]. rewrite app_nil_r. auto. }
  destruct (Put m (variablePath r e (f_uuid (rd st))) b (world st))
    as [a w'] eqn:Hput.
  rewrite (Update_after_marshal _ _ _ m st b r e a w' Hm Hparse Hput).
  assert (forall o : Outcome (option error),
            let put := (o, {| rd := rd st; world := w';
                              trace := trace st
                                       ++ [EvPut (variablePath r e
                                                    (f_uuid (rd st))) b] |}) in
            f_uuid (rd (snd put)) = f_uuid (rd st)
            /\ f_deployment (rd (snd put)) = f_deployment (rd st)
            /\ exists tl,
                 trace (snd put) = (trace st ++ tl)%list
                 /\ (tl = []
                     \/ exists r e b,
                          tl = [EvPut (variablePath r e (f_uuid (rd st))) b]
                          \/ tl = [EvPut (variablePath r e (f_uuid (rd st))) b;
                                   EvGet (variablesPath r e)])) as Hput'.
  { intros o put. repeat split.
    exists [EvPut (variablePath r e (f_uuid (rd st))) b].
    split; [reflexivity|]. right. exists r, e, b. now left. }
  destruct a as [[req|] [x|]]; try apply Hput'.
  destruct (StatusCode req =? 200); [|apply Hput'].
  match goal with
  | |- context [Read m ?s] =>
      pose proof (Read_fields m s) as (Hu & Hd);
      pose proof (Read_trace World
                    json_Unmarshal_PaginatedDeploymentVariables
                    m s r e Hparse) as Ht
  end.
  split; [exact Hu|]. split; [exact Hd|].
  eexists. split.
  - rewrite Ht. cbn [trace]. rewrite <- app_assoc. reflexivity.
  - right. exists r, e, b. now right.
Qed.

(** X9: on a composite identifier without a colon every callback panics
    with "index out of range [1] with length 1" before any request is
    made and with the local record untouched; Create and Update get there
    once the payload is encoded. *)
Theorem callbacks_panic_without_colon
    (m : Client World) (st : State World) :
  ~ has_colon (f_deployment (rd st)) ->
  Read m st = (Panic (IndexOutOfRange 1 1), st)
  /\ Delete_ m st = (Panic (IndexOutOfRange 1 1), st)
  /\ (forall bytedata,
        json_Marshal (payload_of (rd st)) = (bytedata, None) ->
        Create m st = (Panic (IndexOutOfRange 1 1), st)
        /\ Update m st = (Panic (IndexOutOfRange 1 1), st)).
Proof.
  intros Hno.
  pose proof (parseDeploymentId_no_colon _ Hno) as Hparse.
  split; [now apply Read_without_parse|].
  split; [now apply Delete_without_parse|].
  intros bytedata Hm. split.
  - now apply (Create_without_parse m st bytedata).
  - now apply (Update_without_parse m st bytedata).
Qed.


(** X11: when the POST of Create returns no error but its response is
    nil, or has a body that cannot be read or decoded, Create stops there:
    it panics with a nil dereference in the first case and returns the
    error of [ioutil.ReadAll] or [json.Unmarshal] in the others, the POST
    is the only request made, and neither the uuid field nor the identity
    has been written. *)
Theorem Create_keeps_record_when_response_fails
    (m : Client World) (st : State World) (bytedata r e : string)
    (a : option Response) (w' : World) :
  json_Marshal (payload_of (rd st)) = (bytedata, None) ->
  parseDeploymentId (f_deployment (rd st)) = Value (r, e) ->
  Post m (variablesPath r e) bytedata (world st) = ((a, None), w') ->
  let posted :=
    {| rd := rd st; world := w';
       trace := trace st ++ [EvPost (variablesPath r e) bytedata] |} in
  (a = None -> Create m st = (Panic NilDereference, posted))
  /\ (forall resp x,
        a = Some resp ->
        read_error (Body resp) = Some x
        \/ read_error (Body resp) = None
           /\ snd (unmarshal_variable (content (Body resp))) = Some x ->
        Create m st = (Value (Some x), posted)).
Proof.
  intros Hm Hparse Hpost posted.
  rewrite (Create_after_marshal _ _ _ _ m st bytedata r e _ w'
             Hm Hparse Hpost).
  split.
  - intros ->. reflexivity.
  - intros resp x -> H. unfold ioutil_ReadAll.
    destruct H as [->|(-> & H)]; [reflexivity|].
    destruct (unmarshal_variable (content (Body resp))) as [rv o].
    cbn [snd] in H. subst o. reflexivity.
Qed.

(** X12: Create from end to end.  When the POST succeeds with a variable
    of uuid [u] and the list request that follows is answered with status
    200 and a page of size at least 1 whose first entry with uuid [u] is
    [x], Create returns nil with identity and uuid field [u] and with the
    key, value and secured of [x], after a POST, the sleep of five seconds
    and one GET. *)
Theorem Create_ends_with_listed_entry
    (m : Client World) (st : State World) (bytedata r e : string)
    (resp : Response) (w1 : World) (body : string) (rv : DeploymentVariable)
    (lresp : Response) (lerr : option error) (w2 : World)
    (prv : PaginatedDeploymentVariables) (x : DeploymentVariable) :
  json_Marshal (payload_of (rd st)) = (bytedata, None) ->
  parseDeploymentId (f_deployment (rd st)) = Value (r, e) ->
  Post m (variablesPath r e) bytedata (world st) = ((Some resp, None), w1) ->
  ioutil_ReadAll (Body resp) = (body, None) ->
  unmarshal_variable body = (rv, None) ->
  Get m (variablesPath r e) w1 = ((Some lresp, lerr), w2) ->
  StatusCode lresp = 200 -> decodes lresp prv -> 1 <= Size prv ->
  find (has_uuid (UUID rv)) (Values prv) = Some x ->
  Create m st =
  (Value None,
   {| rd := {| Id := UUID rv; f_uuid := UUID rv; f_key := Key x;
               f_value := Value_ x; f_secured := Secured x;
               f_deployment := f_deployment (rd st) |};
      world := w2;
      trace := trace st
               ++ [EvPost (variablesPath r e) bytedata;
                   EvSleep (5000 * Millisecond);
                   EvGet (variablesPath r e)] |}).
Proof.
  intros Hm Hparse Hpost Hbody Hjson Hg Hs Hdec Hsize Hfind.
  rewrite (Create_after_marshal _ _ _ _ m st bytedata r e _ w1
             Hm Hparse Hpost).
  rewrite Hbody, Hjson.
  match goal with
  | |- Read m ?s = _ =>
      rewrite (Read_decoded m s r e lerr w2 Hparse lresp Hg Hs prv Hdec)
  end.
  destruct (Z.ltb_spec (Size prv) 1); [lia|].
  cbn [rd f_uuid with_Id with_uuid]. rewrite Hfind.
  apply find_some in Hfind. destruct Hfind as (_ & Hx).
  apply String.eqb_eq in Hx.
  unfold listed, copied. cbn [rd trace f_uuid f_deployment with_Id with_uuid].
  rewrite Hx, <- app_assoc. reflexivity.
Qed.

(** X13: when the POST of Create succeeds with a variable of uuid [u] but
    the list request that follows finds it absent (size below 1, no entry
    with uuid [u] on the page, or status 404), Create still returns nil,
    with the uuid field set to [u] and the identity empty. *)
Theorem Create_returns_nil_without_identity_when_not_listed
    (m : Client World) (st : State World) (bytedata r e : string)
    (resp : Response) (w1 : World) (body : string) (rv : DeploymentVariable)
    (lresp : Response) (lerr : option error) (w2 : World) :
  json_Marshal (payload_of (rd st)) = (bytedata, None) ->
  parseDeploymentId (f_deployment (rd st)) = Value (r, e) ->
  Post m (variablesPath r e) bytedata (world st) = ((Some resp, None), w1) ->
  ioutil_ReadAll (Body resp) = (body, None) ->
  unmarshal_variable body = (rv, None) ->
  Get m (variablesPath r e) w1 = ((Some lresp, lerr), w2) ->
  is_absent lresp (with_uuid (UUID rv) (rd st)) ->
  Create m st =
  (Value None,
   {| rd := with_Id "" (with_uuid (UUID rv) (rd st));
      world := w2;
      trace := trace st
               ++ [EvPost (variablesPath r e) bytedata;
                   EvSleep (5000 * Millisecond);
                   EvGet (variablesPath r e)] |}).
Proof.
  intros Hm Hparse Hpost Hbody Hjson Hg Habs.
  rewrite (Create_after_marshal _ _ _ _ m st bytedata r e _ w1
             Hm Hparse Hpost).
  rewrite Hbody, Hjson.
  match goal with
  | |- Read m ?s = _ =>
      rewrite (Read_absent World json_Unmarshal_PaginatedDeploymentVariables
                 m s r e lresp lerr w2 Hparse Hg Habs)
  end.
  unfold listed. cbn [rd trace]. rewrite <- app_assoc. reflexivity.
Qed.

(** X14: when the PUT of Update returns a response of status 200 and no
    error, Update is the Read of the record as it stands: it returns what
    that Read returns, after the PUT and one GET. *)
Theorem Update_200_is_Read
    (m : Client World) (st : State World) (bytedata r e : string)
    (resp : Response) (w' : World) :
  json_Marshal (payload_of (rd st)) = (bytedata, None) ->
  parseDeploymentId (f_deployment (rd st)) = Value (r, e) ->
  Put m (variablePath r e (f_uuid (rd st))) bytedata (world st)
  = ((Some resp, None), w') ->
  StatusCode resp = 200 ->
  let put :=
    {| rd := rd st; world := w';
       trace := trace st
                ++ [EvPut (variablePath r e (f_uuid (rd st))) bytedata] |} in
  Update m st = Read m put
  /\ trace (snd (Update m st))
     = (trace st
        ++ [EvPut (variablePath r e (f_uuid (rd st))) bytedata;
            EvGet (variablesPath r e)])%list.
Proof.
  intros Hm Hparse Hput Hs put.
  assert (Update m st = Read m put) as HU.
  { rewrite (Update_after_marshal _ _ _ m st bytedata r e _ w'
               Hm Hparse Hput).
    rewrite Hs. reflexivity. }
  split; [exact HU|].
  rewrite HU.
  rewrite (Read_trace World json_Unmarshal_PaginatedDeploymentVariables
             m put r e Hparse).
  subst put. cbn [trace]. rewrite <- app_assoc. reflexivity.
Qed.

(** X15: what the callbacks never write.  Whatever the outcome, Delete
    leaves the whole local record as it was (the identity included),
    Update leaves the uuid and deployment fields as they were, and Create
    leaves the deployment field as it was. *)
Theorem callbacks_keep_addressing_fields
    (m : Client World) (st : State World) :
  rd (snd (Delete_ m st)) = rd st
  /\ f_uuid (rd (snd (Update m st))) = f_uuid (rd st)
  /\ f_deployment (rd (snd (Update m st))) = f_deployment (rd st)
  /\ f_deployment (rd (snd (Create m st))) = f_deployment (rd st).
Proof.
  split; [|split; [|split]].
  - destruct (parseDeploymentId (f_deployment (rd st)))
      as [[r e]|p] eqn:Hparse.
    + destruct (Delete m (fmt_Sprintf0 (variablePath r e (f_uuid (rd st))))
                  (world st)) as [a w'] eqn:Hdel.
      now rewrite (Delete_after_parse _ _ m st r e a w' Hparse Hdel).
    + now rewrite (Delete_without_parse m st p Hparse).
  - apply Update_summary.
  - apply Update_summary.
  - apply Create_summary.
Qed.

(** X16: Delete returns what [client.Delete] returns as its error, nil
    included, whatever the response and its status; it makes that one
    request, on the item path formatted twice, and writes nothing to the
    local record. *)
Theorem Delete_returns_error_of_client
    (m : Client World) (st : State World) (r e : string)
    (resp : option Response) (err : option error) (w' : World) :
  parseDeploymentId (f_deployment (rd st)) = Value (r, e) ->
  Delete m (fmt_Sprintf0 (variablePath r e (f_uuid (rd st)))) (world st)
  = ((resp, err), w') ->
  Delete_ m st =
  (Value err,
   {| rd := rd st; world := w';
      trace := trace st
               ++ [EvDelete
                     (fmt_Sprintf0 (variablePath r e (f_uuid (rd st))))] |}).
Proof.
  intros Hparse Hdel.
  apply (Delete_after_parse _ _ m st r e (resp, err) w' Hparse Hdel).
Qed.

(** X17: the requests of a run.  Create makes no request, or a POST, or a
    POST, the sleep of five seconds and a GET on the same path; Update
    makes no request, or a PUT on the item path, or that PUT and a GET on
    the collection path.  Neither sleeps or lists without its write
    before, and neither deletes. *)
Theorem Create_and_Update_requests
    (m : Client World) (st : State World) :
  (exists tl,
     trace (snd (Create m st)) = (trace st ++ tl)%list
     /\ (tl = []
         \/ exists r e b,
              tl = [EvPost (variablesPath r e) b]
              \/ tl = [EvPost (variablesPath r e) b;
                       EvSleep (5000 * Millisecond);
                       EvGet (variablesPath r e)]))
  /\ (exists tl,
        trace (snd (Update m st)) = (trace st ++ tl)%list
        /\ (tl = []
            \/ exists r e b,
                 tl = [EvPut (variablePath r e (f_uuid (rd st))) b]
                 \/ tl = [EvPut (variablePath r e (f_uuid (rd st))) b;
                          EvGet (variablesPath r e)])).
Proof.
  split.
  - apply Create_summary.
  - apply Update_summary.
Qed.

End Behaviour.

(* ================================================================== *)
(** ** The further theorems at work on the test services *)

Lemma Read_other_status_changes_nothing_witness :
  StatusCode (respond 500 "internal error") <> 200
  /\ StatusCode (respond 500 "internal error") <> 404
  /\ run_Read service_down (start local_u1)
     = (Value None,
        {| rd := local_u1; world := tt;
           trace := [EvGet (variablesPath "repo" "env")] |}).
Proof.
  split; [discriminate|]. split; [discriminate|].
  apply (Read_other_status_changes_nothing unit (table_Unmarshal page_bodies)
           service_down (start local_u1) "repo" "env"
           (respond 500 "internal error") (Some (Error "internal error")) tt).
  - reflexivity.
  - reflexivity.
  - discriminate.
  - discriminate.
Defined.

Lemma Read_nil_response_panics_witness :
  run_Read service_unreachable (start local_u1)
  = (Panic NilDereference,
     {| rd := local_u1; world := tt;
        trace := [EvGet (variablesPath "repo" "env")] |}).
Proof.
  apply (Read_nil_response_panics unit (table_Unmarshal page_bodies)
           service_unreachable (start local_u1) "repo" "env"
           (Some (Error "dial tcp: connection refused")) tt).
  - reflexivity.
  - reflexivity.
Defined.

Lemma Read_error_iff_body_fails_witness :
  fst (run_Read service_garbled (start local_u1))
  = Value (Some (Error "invalid character looking for beginning of value"))
  /\ rd (snd (run_Read service_garbled (start local_u1))) = local_u1.
Proof.
  destruct (Read_error_iff_body_fails unit (table_Unmarshal page_bodies)
              service_garbled (start local_u1) "repo" "env"
              (respond 200 "<html>") None tt
              (Error "invalid character looking for beginning of value")
              eq_refl eq_refl)
    as (Hiff & Hrd).
  assert (fst (run_Read service_garbled (start local_u1))
          = Value (Some (Error "invalid character looking for beginning of value")))
    as H.
  { apply Hiff. split; [reflexivity|]. right. split; reflexivity. }
  split; [exact H | exact (Hrd H)].
Defined.

Lemma Read_keeps_identity_empty_or_uuid_witness :
  (Id local_u1 = "" \/ Id local_u1 = f_uuid local_u1)
  /\ (Id (rd (snd (run_Read service_without_u1 (start local_u1)))) = ""
      \/ Id (rd (snd (run_Read service_without_u1 (start local_u1))))
         = f_uuid (rd (snd (run_Read service_without_u1 (start local_u1))))).
Proof.
  assert (Id local_u1 = "" \/ Id local_u1 = f_uuid local_u1) as H
    by (right; reflexivity).
  split; [exact H|].
  apply (Read_keeps_identity_empty_or_uuid unit (table_Unmarshal page_bodies)
           service_without_u1 (start local_u1) H).
Defined.

Lemma Read_ignores_page_and_next_witness :
  fst (resourceDeploymentVariableRead unit (table_Unmarshal paged_bodies)
         service_only_page (start local_u1))
  = fst (resourceDeploymentVariableRead unit (table_Unmarshal paged_bodies)
           service_first_of_two (start local_u1))
  /\ rd (snd (resourceDeploymentVariableRead unit
                (table_Unmarshal paged_bodies)
                service_only_page (start local_u1)))
     = rd (snd (resourceDeploymentVariableRead unit
                  (table_Unmarshal paged_bodies)
                  service_first_of_two (start local_u1))).
Proof.
  apply (Read_ignores_page_and_next unit (table_Unmarshal paged_bodies)
           service_only_page service_first_of_two
           (start local_u1) (start local_u1) "repo" "env"
           (respond 200 "only-page") (respond 200 "first-of-two")
           None None tt tt
           {| Values := [var_u2]; Page := 1; Size := 1; Next := "" |}
           {| Values := [var_u2]; Page := 1; Size := 1;
              Next := "https://api.bitbucket.org/2.0/variables?page=2" |}).
  - reflexivity.
  - reflexivity.
  - reflexivity.
  - reflexivity.
  - reflexivity.
  - reflexivity.
  - exists "only-page". split; reflexivity.
  - exists "first-of-two". split; reflexivity.
  - reflexivity.
  - reflexivity.
Defined.

Lemma callbacks_panic_without_colon_witness :
  ~ has_colon (f_deployment local_malformed)
  /\ run_Read service (start local_malformed)
     = (Panic (IndexOutOfRange 1 1), start local_malformed)
  /\ run_Delete service (start local_malformed)
     = (Panic (IndexOutOfRange 1 1), start local_malformed)
  /\ run_Create service (start local_malformed)
     = (Panic (IndexOutOfRange 1 1), start local_malformed)
  /\ run_Update service (start local_malformed)
     = (Panic (IndexOutOfRange 1 1), start local_malformed).
Proof.
  assert (~ has_colon (f_deployment local_malformed)) as Hno.
  { unfold has_colon. cbn. intros H.
    repeat (destruct H as [H|H]; [discriminate H|]). exact H. }
  split; [exact Hno|].
  destruct (callbacks_panic_without_colon unit plain_Marshal
              (table_Unmarshal variable_bodies) (table_Unmarshal page_bodies)
              plain_Sprintf0 service (start local_malformed) Hno)
    as (HR & HD & HCU).
  destruct (HCU "{key:k,value:v,secured:false}" eq_refl) as (HC & HU).
  split; [exact HR|]. split; [exact HD|]. split; [exact HC | exact HU].
Defined.


Lemma Create_keeps_record_when_response_fails_witness :
  run_Create service_cut_off (start local_new)
  = (Value (Some (Error "unexpected EOF")),
     {| rd := local_new; world := tt;
        trace := [EvPost (variablesPath "repo" "env")
                    "{key:k,value:v,secured:false}"] |})
  /\ run_Create service_garbled (start local_new)
     = (Value (Some (Error "invalid character looking for beginning of value")),
        {| rd := local_new; world := tt;
           trace := [EvPost (variablesPath "repo" "env")
                       "{key:k,value:v,secured:false}"] |}).
Proof.
  split.
  - apply (proj2 (Create_keeps_record_when_response_fails unit plain_Marshal
                    (table_Unmarshal variable_bodies)
                    (table_Unmarshal page_bodies)
                    service_cut_off (start local_new)
                    "{key:k,value:v,secured:false}" "repo" "env"
                    (Some cut_off) tt eq_refl eq_refl eq_refl)
             cut_off (Error "unexpected EOF") eq_refl).
    left. reflexivity.
  - apply (proj2 (Create_keeps_record_when_response_fails unit plain_Marshal
                    (table_Unmarshal variable_bodies)
                    (table_Unmarshal page_bodies)
                    service_garbled (start local_new)
                    "{key:k,value:v,secured:false}" "repo" "env"
                    (Some (respond 200 "<html>")) tt eq_refl eq_refl eq_refl)
             (respond 200 "<html>")
             (Error "invalid character looking for beginning of value")
             eq_refl).
    right. split; reflexivity.
Defined.

Lemma Create_ends_with_listed_entry_witness :
  run_Create service (start local_new)
  = (Value None,
     {| rd := {| Id := "u1"; f_uuid := "u1"; f_key := "k2"; f_value := "v2";
                 f_secured := true; f_deployment := "repo:env" |};
        world := tt;
        trace := [EvPost (variablesPath "repo" "env")
                    "{key:k,value:v,secured:false}";
                  EvSleep 5000000000;
                  EvGet (variablesPath "repo" "env")] |}).
Proof.
  apply (Create_ends_with_listed_entry unit plain_Marshal
           (table_Unmarshal variable_bodies) (table_Unmarshal page_bodies)
           service (start local_new) "{key:k,value:v,secured:false}"
           "repo" "env" (respond 200 "created-u1") tt "created-u1" var_u1
           (respond 200 "page-u2-u1") None tt
           {| Values := [var_u2; var_u1_remote]; Page := 1; Size := 2;
              Next := "" |}
           var_u1_remote).
  - reflexivity.
  - reflexivity.
  - reflexivity.
  - reflexivity.
  - reflexivity.
  - reflexivity.
  - reflexivity.
  - exists "page-u2-u1". split; reflexivity.
  - cbn. lia.
  - reflexivity.
Defined.

Lemma Create_returns_nil_without_identity_when_not_listed_witness :
  run_Create service_lagging (start local_new)
  = (Value None,
     {| rd := {| Id := ""; f_uuid := "u1"; f_key := "k"; f_value := "v";
                 f_secured := false; f_deployment := "repo:env" |};
        world := tt;
        trace := [EvPost (variablesPath "repo" "env")
                    "{key:k,value:v,secured:false}";
                  EvSleep 5000000000;
                  EvGet (variablesPath "repo" "env")] |}).
Proof.
  apply (Create_returns_nil_without_identity_when_not_listed unit
           plain_Marshal
           (table_Unmarshal variable_bodies) (table_Unmarshal page_bodies)
           service_lagging (start local_new) "{key:k,value:v,secured:false}"
           "repo" "env" (respond 200 "created-u1") tt "created-u1" var_u1
           (respond 200 "page-u2") None tt).
  - reflexivity.
  - reflexivity.
  - reflexivity.
  - reflexivity.
  - reflexivity.
  - reflexivity.
  - left. split; [reflexivity|].
    exists {| Values := [var_u2]; Page := 1; Size := 1; Next := "" |}.
    split.
    + exists "page-u2". split; reflexivity.
    + right. intros rv [<-|[]]. discriminate.
Defined.

Lemma Update_200_is_Read_witness :
  let put :=
    {| rd := local_u1; world := tt;
       trace := [EvPut (variablePath "repo" "env" "u1")
                   "{key:k,value:v,secured:false}"] |} in
  run_Update service_accepting (start local_u1)
  = run_Read service_accepting put
  /\ trace (snd (run_Update service_accepting (start local_u1)))
     = [EvPut (variablePath "repo" "env" "u1") "{key:k,value:v,secured:false}";
        EvGet (variablesPath "repo" "env")].
Proof.
  apply (Update_200_is_Read unit plain_Marshal (table_Unmarshal page_bodies)
           service_accepting (start local_u1) "{key:k,value:v,secured:false}"
           "repo" "env" (respond 200 "updated") tt).
  - reflexivity.
  - reflexivity.
  - reflexivity.
  - reflexivity.
Defined.

Lemma Delete_returns_error_of_client_witness :
  run_Delete service_down (start local_u1)
  = (Value (Some (Error "internal error")),
     {| rd := local_u1; world := tt;
        trace := [EvDelete (variablePath "repo" "env" "u1")] |})
  /\ run_Delete service (start local_u1)
     = (Value None,
        {| rd := local_u1; world := tt;
           trace := [EvDelete (variablePath "repo" "env" "u1")] |}).
Proof.
  split.
  - apply (Delete_returns_error_of_client unit plain_Sprintf0
             service_down (start local_u1) "repo" "env"
             (Some (respond 500 "internal error"))
             (Some (Error "internal error")) tt).
    + reflexivity.
    + reflexivity.
  - apply (Delete_returns_error_of_client unit plain_Sprintf0
             service (start local_u1) "repo" "env"
             (Some (respond 204 "")) None tt).
    + reflexivity.
    + reflexivity.
Defined.
